(** * Anomaly detection of the CHEMVIZ web front end

    A shallow embedding of [web-frontend/src/utils/anomalyDetection.js]
    (calculateStatistics, detectAnomaly, analyzeDataset, getAnomalyTooltip)
    and of the guard that [components/DataTable.jsx] puts in front of
    analyzeDataset, followed by the rest of the table component (sorting,
    pagination, the anomaly info and class of a cell).

    JavaScript numbers are IEEE 754 binary64 values: they are modelled by
    Rocq's primitive floats, whose operations are the same binary64
    operations with round-to-nearest-even.  Objects used as dictionaries
    (rows, columnStats, anomalyCounts) are finite maps of their own
    properties, keyed by property name; for the two objects that
    analyzeDataset fills, the assignment under the name [__proto__], which
    goes to the accessor that plain objects inherit and stores no property,
    is modelled as well. *)

From Stdlib Require Import ZArith QArith Qround Lia List Permutation Sorted.
From Stdlib Require Import Floats.
From stdpp Require Import base option list strings pretty gmap.

Local Open Scope string_scope.

(** ** JavaScript values *)

(** A cell of a row.  [VObject] stands for any object other than [null]
    (a nested object or array): the code only ever asks a cell for
    [typeof v === 'number'] and [isNaN(v)]. *)
Inductive value : Type :=
| VUndefined
| VNull
| VBool (b : bool)
| VNumber (x : float)
| VString (s : string)
| VObject.

(** [typeof v === 'number' && !isNaN(v)], the test that calculateStatistics
    and analyzeDataset both apply to a cell. *)
Definition is_numeric (v : value) : bool :=
  match v with
  | VNumber x => negb (is_nan x)
  | _ => false
  end.

(** The number held by a cell that passed [is_numeric]. *)
Definition number_of (v : value) : option float :=
  match v with
  | VNumber x => if is_nan x then None else Some x
  | _ => None
  end.

(** [Number.isFinite(v)]: a number that is neither NaN nor an infinity. *)
Definition is_finite_number (v : value) : bool :=
  match v with
  | VNumber x => negb (is_nan x) && negb (is_infinity x)
  | _ => false
  end.

(** ** Arrays of numbers *)

(** [values.filter(v => typeof v === 'number' && !isNaN(v))], as the list of
    the numbers that are kept. *)
Definition numericValues (values : list value) : list float :=
  omap number_of values.

(** The comparator handed to [sort]: [(a, b) => a - b]. *)
Definition comparator (a b : float) : float := (a - b)%float.

(** [Array.prototype.sort] with a comparator is a stable sort that puts [b]
    before [a] when [comparator a b > 0] (a NaN result counts as [+0]).
    [sort_insert x l] places [x], which precedes the elements of [l] in the
    input, in front of the first element it is not greater than. *)
Fixpoint sort_insert (x : float) (l : list float) : list float :=
  match l with
  | [] => [x]
  | y :: l' => if (0 <? comparator x y)%float then y :: sort_insert x l'
               else x :: y :: l'
  end.

Definition js_sort (l : list float) : list float :=
  foldr sort_insert [] l.

(** [numericValues.reduce((a, b) => a + b, 0)]: a left fold from [0]. *)
Definition js_sum (l : list float) : float :=
  fold_left (fun a b => a + b)%float l 0%float.

(** A JavaScript number for an array length.  Lengths are below [2^32], so
    the conversion is exact. *)
Definition float_of_nat (n : nat) : float :=
  of_uint63 (Uint63.of_Z (Z.of_nat n)).

(** [Math.floor(n * p)] for a length [n] and [p] one of [0.25], [0.5],
    [0.75].  The product of a length and such a [p] has at most two binary
    digits after the point, so the double product is the exact one and its
    floor is the floor of the rational product. *)
Definition floor_index (n : nat) (p : Q) : nat :=
  Z.to_nat (Qfloor (inject_Z (Z.of_nat n) * p)%Q).

(** [sorted[i]].  Out of range JavaScript answers [undefined], which every
    arithmetic use turns into NaN; the indices of calculateStatistics are
    always in range (lemma [floor_index_lt] below). *)
Definition js_nth (l : list float) (i : nat) : float :=
  nth i l nan.

(** ** calculateStatistics *)

Record Statistics : Type := mkStatistics {
  q1 : float;
  q3 : float;
  iqr : float;
  median : float;
  mean : float;
  min : float;
  max : float;
  lowerBound : float;
  upperBound : float;
  lowerExtreme : float;
  upperExtreme : float;
  count : nat
}.

(** [values] is an array of cells; [None] is the [null] that the function
    returns for an input without numbers.  [count] is a length, kept as a
    natural number. *)
Definition calculateStatistics (values : list value) : option Statistics :=
  let numericValues := numericValues values in
  if Nat.eqb (length numericValues) 0 then None
  else
    let sorted := js_sort numericValues in
    let n := length sorted in
    let q1 := js_nth sorted (floor_index n 0.25%Q) in
    let q3 := js_nth sorted (floor_index n 0.75%Q) in
    let iqr := (q3 - q1)%float in
    let median := js_nth sorted (floor_index n 0.5%Q) in
    let mean := (js_sum numericValues / float_of_nat n)%float in
    let lowerBound := (q1 - 1.5 * iqr)%float in
    let upperBound := (q3 + 1.5 * iqr)%float in
    let lowerExtreme := (q1 - 3 * iqr)%float in
    let upperExtreme := (q3 + 3 * iqr)%float in
    Some {| q1 := q1; q3 := q3; iqr := iqr; median := median; mean := mean;
            min := js_nth sorted 0; max := js_nth sorted (n - 1);
            lowerBound := lowerBound; upperBound := upperBound;
            lowerExtreme := lowerExtreme; upperExtreme := upperExtreme;
            count := n |}.

(** ** detectAnomaly *)

Inductive AnomalyType : Type := high | low.
Inductive Severity : Type := mild | extreme.

(** [{ isAnomaly, type, severity }]; [None] is [null]. *)
Record Anomaly : Type := mkAnomaly {
  isAnomaly : bool;
  type : option AnomalyType;
  severity : option Severity
}.

Definition no_anomaly : Anomaly :=
  {| isAnomaly := false; type := None; severity := None |}.

(** [stats] is [None] for a falsy argument ([null], or the [undefined] that
    a lookup in columnStats gives for a column without entry). *)
Definition detectAnomaly (v : value) (stats : option Statistics) : Anomaly :=
  match stats, v with
  | Some stats, VNumber x =>
      if is_nan x then no_anomaly
      else if (x <? lowerExtreme stats)%float then
        {| isAnomaly := true; type := Some low; severity := Some extreme |}
      else if (upperExtreme stats <? x)%float then
        {| isAnomaly := true; type := Some high; severity := Some extreme |}
      else if (x <? lowerBound stats)%float then
        {| isAnomaly := true; type := Some low; severity := Some mild |}
      else if (upperBound stats <? x)%float then
        {| isAnomaly := true; type := Some high; severity := Some mild |}
      else no_anomaly
  | _, _ => no_anomaly
  end.

(** ** Arguments and exceptions *)

(** What a caller can pass for [data] or [columns]: [undefined], [null], a
    primitive, a plain object that holds data (its own properties, no
    method) or an array.  The elements of an array have the type the JSDoc
    gives them: [A] is a row object for [data], a column name for
    [columns]. *)
Inductive jsarg (A : Type) : Type :=
| AUndefined
| ANull
| ABool (b : bool)
| ANumber (x : float)
| AString (s : string)
| AObject (props : gmap string value)
| AArray (items : list A).
Arguments AUndefined {A}.
Arguments ANull {A}.
Arguments ABool {A} b.
Arguments ANumber {A} x.
Arguments AString {A} s.
Arguments AObject {A} props.
Arguments AArray {A} items.

Inductive js_error : Type := TypeError.

(** The result of running a piece of code: a value, or an exception that
    propagates to the caller. *)
Inductive outcome (A : Type) : Type :=
| Return (a : A)
| Throw (e : js_error).
Arguments Return {A} a.
Arguments Throw {A} e.

#[global] Instance outcome_bind : MBind outcome := fun A B k m =>
  match m with
  | Return a => k a
  | Throw e => Throw e
  end.

(** The receiver of [recv.filter(...)], [recv.map(...)], [recv.forEach(...)]:
    the call goes through for an array.  On [undefined] and [null] the
    property read throws; a primitive or a plain data object has no
    callable member of that name, so the call throws as well. *)
Definition array_receiver {A} (recv : jsarg A) : outcome (list A) :=
  match recv with
  | AArray items => Return items
  | _ => Throw TypeError
  end.

(** [items.filter(callback)] for a callback that may throw. *)
Fixpoint filter_callback {A} (callback : A -> outcome bool) (items : list A)
  : outcome (list A) :=
  match items with
  | [] => Return []
  | x :: items' =>
      keep ← callback x;
      rest ← filter_callback callback items';
      Return (if keep : bool then x :: rest else rest)
  end.

(** [items.forEach(callback)] for a callback that updates the variables it
    closes over (the state [S]) and may throw. *)
Fixpoint forEach_callback {A S} (callback : S -> A -> outcome S)
    (items : list A) (s : S) : outcome S :=
  match items with
  | [] => Return s
  | x :: items' =>
      s' ← callback s x;
      forEach_callback callback items' s'
  end.

(** ** analyzeDataset *)

(** A row object: its own properties, by name. *)
Abbreviation row := (gmap string value).

(** [row[col]].  A property that the row does not own reads as
    [undefined] (what a plain object inherits under a few names are
    functions and objects, never numbers, and the code only asks whether
    the value is a number). *)
Definition row_get (r : row) (col : string) : value :=
  default VUndefined (r !! col).

(** *** The two dictionaries

    analyzeDataset creates [columnStats] and [anomalyCounts] by [{}] and
    uses them as dictionaries keyed by column name.  Such an object
    inherits the accessor [__proto__] from [Object.prototype]: as long as
    the object owns no property of that name, [obj["__proto__"]] reads its
    prototype, and [obj["__proto__"] = v] replaces its prototype when [v]
    is an object or [null] and does nothing when [v] is a primitive; no
    property is stored.  Under every other name an assignment stores an own
    property. *)

(** What stands as the prototype of [columnStats]: [Object.prototype], as
    created, or what an assignment to [__proto__] put in its place, a
    statistics object (which inherits from [Object.prototype] in turn) or
    [null]. *)
Inductive Prototype : Type :=
| ObjectPrototype
| StatisticsPrototype (stats : Statistics)
| NullPrototype.

(** The accessor [__proto__] is found along the prototype chain. *)
Definition inherits_proto_accessor (p : Prototype) : bool :=
  match p with
  | NullPrototype => false
  | _ => true
  end.

(** The object [columnStats]: its own properties ([None] is a [null]
    value) and its prototype. *)
Record StatsObject : Type := mkStatsObject {
  own : gmap string (option Statistics);
  prototype : Prototype
}.

(** [{}] *)
#[global] Instance StatsObject_empty : Empty StatsObject :=
  {| own := ∅; prototype := ObjectPrototype |}.

(** [obj[col] = stats], for [stats] a statistics object or [null]. *)
Definition assign_stats (col : string) (stats : option Statistics)
    (obj : StatsObject) : StatsObject :=
  match own obj !! col with
  | None =>
      if String.eqb col "__proto__" && inherits_proto_accessor (prototype obj)
      then {| own := own obj;
              prototype := match stats with
                           | Some st => StatisticsPrototype st
                           | None => NullPrototype
                           end |}
      else {| own := <[col := stats]> (own obj); prototype := prototype obj |}
  | Some _ => {| own := <[col := stats]> (own obj); prototype := prototype obj |}
  end.

(** [obj[col]], as far as it is a statistics object or [null]: an own
    property, or under [__proto__] the statistics that stand as prototype.
    [None] is [undefined] and every other value that the object inherits
    under the name: the methods of [Object.prototype], under [__proto__]
    [Object.prototype] itself, and a field of the statistics that stand as
    prototype (a number).  None of these carries fences: the reader,
    getCellAnomalyInfo, either stops at [!stats] or has detectAnomaly
    compare the cell with [undefined] four times, which flags nothing. *)
Definition read_stats (obj : StatsObject) (col : string)
  : option (option Statistics) :=
  match own obj !! col with
  | Some stats => Some stats
  | None =>
      if String.eqb col "__proto__" then
        match prototype obj with
        | StatisticsPrototype st => Some (Some st)
        | _ => None
        end
      else None
  end.

#[global] Instance StatsObject_lookup
  : Lookup string (option Statistics) StatsObject :=
  fun col obj => read_stats obj col.

(** [obj[col] = count] on [anomalyCounts], for [count] a number.  The
    accessor ignores a number, so the prototype of anomalyCounts stays
    [Object.prototype] and the object is the map of its own properties. *)
Definition assign_count (col : string) (count : nat) (obj : gmap string nat)
  : gmap string nat :=
  match obj !! col with
  | None => if String.eqb col "__proto__" then obj else <[col := count]> obj
  | Some _ => <[col := count]> obj
  end.

Record AnalysisResult : Type := mkAnalysisResult {
  columnStats : StatsObject;
  anomalyCounts : gmap string nat;
  numericColumns : list string;
  totalAnomalies : nat
}.

(** [Object.values(counts).reduce((a, b) => a + b, 0)], over the own
    properties.  The counts are natural numbers far below [2^53], whose
    sum does not depend on the order in which the properties are
    enumerated. *)
Definition sum_values (counts : gmap string nat) : nat :=
  fold_left Nat.add (map snd (map_to_list counts)) 0.

(** [data.map(row => row[col])] *)
Definition column_values (data : jsarg row) (col : string)
  : outcome (list value) :=
  rows ← array_receiver data;
  Return (map (fun r => row_get r col) rows).

(** The loop [data.forEach(row => { ... if (anomaly.isAnomaly) count++ })]. *)
Definition count_anomalies (data : jsarg row) (col : string)
    (stats : option Statistics) : outcome nat :=
  rows ← array_receiver data;
  forEach_callback
    (fun count r =>
       let anomaly := detectAnomaly (row_get r col) stats in
       Return (if isAnomaly anomaly then S count else count))
    rows 0.

Definition analyzeDataset (data : jsarg row) (columns : jsarg string)
  : outcome AnalysisResult :=
  cols ← array_receiver columns;
  numericColumns ←
    filter_callback
      (fun col =>
         values ← column_values data col;
         Return (existsb is_numeric values))
      cols;
  maps ←
    forEach_callback
      (fun (maps : StatsObject * gmap string nat) col =>
         values ← column_values data col;
         let stats := calculateStatistics values in
         let columnStats := assign_stats col stats (fst maps) in
         count ← count_anomalies data col stats;
         let anomalyCounts := assign_count col count (snd maps) in
         Return (columnStats, anomalyCounts))
      numericColumns (∅, ∅);
  Return {| columnStats := fst maps;
            anomalyCounts := snd maps;
            numericColumns := numericColumns;
            totalAnomalies := sum_values (snd maps) |}.

(** ** The guard of DataTable *)

(** [!arg] *)
Definition falsy {A} (arg : jsarg A) : bool :=
  match arg with
  | AUndefined | ANull => true
  | ABool b => negb b
  | ANumber x => (x =? 0)%float || is_nan x
  | AString s => Nat.eqb (String.length s) 0
  | AObject _ | AArray _ => false
  end.

(** [arg.length === 0] for an [arg] that is neither [undefined] nor
    [null]. *)
Definition length_is_zero {A} (arg : jsarg A) : bool :=
  match arg with
  | AString s => Nat.eqb (String.length s) 0
  | AArray items => Nat.eqb (length items) 0
  | AObject props =>
      match props !! "length" with
      | Some (VNumber x) => (x =? 0)%float
      | _ => false
      end
  | _ => false
  end.

(** The [useMemo] body of DataTable:
    [if (!data || data.length === 0 || !columns) return null;
     return analyzeDataset(data, columns);] *)
Definition anomalyAnalysis (data : jsarg row) (columns : jsarg string)
  : outcome (option AnalysisResult) :=
  if falsy data || length_is_zero data || falsy columns then Return None
  else
    result ← analyzeDataset data columns;
    Return (Some result).

(** ** getAnomalyTooltip *)

Section Tooltip.

(** [Number::toString] for a finite number of magnitude [10^21] or more
    (the shortest decimal that reads back as the number, in exponent
    notation).  It belongs to the language, not to this repository, and
    no statement below depends on what it answers. *)
Variable number_to_string : float -> string.

(** The digits of [n / 10^f]: [n] in decimal, padded with zeros on the left
    to [f + 1] digits, with a point before the last [f] digits. *)
Definition fixed_digits (n : N) (f : nat) : string :=
  let m := pretty n in
  if Nat.eqb f 0 then m
  else
    let m := String.concat "" (replicate (S f - String.length m) "0") ++ m in
    let k := String.length m in
    String.substring 0 (k - f) m ++ "." ++ String.substring (k - f) f m.

(** [x.toFixed(f)], for [0 <= f <= 100].  A number that is not finite is
    rendered by name.  Otherwise the sign is split off and the magnitude
    [mx * 2^ex], when below [10^21], is rendered through the integer [n]
    for which [n / 10^f] is nearest to it, the larger one in a tie. *)
Definition toFixed (x : float) (f : nat) : string :=
  match Prim2SF x with
  | S754_nan => "NaN"
  | S754_infinity false => "Infinity"
  | S754_infinity true => "-Infinity"
  | S754_zero _ => fixed_digits 0 f
  | S754_finite sx mx ex =>
      let s := if sx then "-" else "" in
      let scaled := (Z.pos mx * 10 ^ Z.of_nat f)%Z in
      if (0 <=? ex)%Z then
        if (10 ^ 21 <=? Z.pos mx * 2 ^ ex)%Z then number_to_string x
        else s ++ fixed_digits (Z.to_N (scaled * 2 ^ ex)) f
      else
        let den := (2 ^ (- ex))%Z in
        s ++ fixed_digits (Z.to_N ((2 * scaled + den) / (2 * den))) f
  end.

(** The texts are kept as the bytes of the source file. *)
Definition getAnomalyTooltip (anomaly : Anomaly) (stats : Statistics)
    (v : float) : string :=
  if negb (isAnomaly anomaly) then ""
  else
    let direction :=
      match type anomaly with Some high => "above" | _ => "below" end in
    let bound :=
      match type anomaly with
      | Some high => upperBound stats
      | _ => lowerBound stats
      end in
    let diff := toFixed (abs (v - bound)) 2 in
    let percentDiff := toFixed (abs (v - mean stats) / mean stats * 100) 1 in
    match severity anomaly with
    | Some extreme =>
        "‚ö†Ô∏è Extreme outlier! " ++ percentDiff ++ "% " ++ direction
          ++ " average (deviation: " ++ diff ++ ")"
    | _ =>
        "üìä Outlier detected: " ++ percentDiff ++ "% " ++ direction
          ++ " average"
    end.

(** The parts of the message, as getAnomalyTooltip computes them. *)
Definition direction_word (anomaly : Anomaly) : string :=
  match type anomaly with Some high => "above" | _ => "below" end.

Definition percent_figure (stats : Statistics) (v : float) : string :=
  toFixed (abs (v - mean stats) / mean stats * 100) 1.

Definition deviation_figure (anomaly : Anomaly) (stats : Statistics)
    (v : float) : string :=
  toFixed
    (abs (v - match type anomaly with
              | Some high => upperBound stats
              | _ => lowerBound stats
              end)) 2.

End Tooltip.

(** ** Scenario A of the specification: the column [10, 12, 11, 13, 100] *)

Definition scenarioA : list value :=
  [VNumber 10; VNumber 12; VNumber 11; VNumber 13; VNumber 100].

(** * The table component (components/DataTable.jsx) *)

(** ** Sorting state *)

Inductive Direction : Type := asc | desc.

(** [sortConfig]: [{ key, direction }], with [None] for the initial
    [key: null]. *)
Record SortConfig : Type := mkSortConfig {
  key : option string;
  direction : Direction
}.

Definition initialSortConfig : SortConfig :=
  {| key := None; direction := asc |}.

(** [handleSort(key)], as the update of the state [prev]. *)
Definition handleSort (k : string) (prev : SortConfig) : SortConfig :=
  {| key := Some k;
     direction :=
       match key prev, direction prev with
       | Some k', asc => if String.eqb k' k then desc else asc
       | _, _ => asc
       end |}.

Definition getSortIndicator (sortConfig : SortConfig) (k : string) : string :=
  match key sortConfig with
  | Some k' =>
      if String.eqb k' k then
        match direction sortConfig with asc => " ↑" | desc => " ↓" end
      else " ↕"
  | None => " ↕"
  end.

(** ** Sorting the rows *)

(** [Array.prototype.sort] with a comparator that answers a number: the
    stable sort that puts [b] before [a] when the comparator answers a
    positive number for [(a, b)].  (For a comparator that is not
    consistent, as [compareRows] is when the key of a row is NaN, the
    order is up to the engine and need not be the one below; the result
    is a rearrangement in any case, and the statements about the order
    are for keys that are numbers other than NaN.) *)
Fixpoint insert_by {A} (compare : A -> A -> Z) (x : A) (l : list A)
  : list A :=
  match l with
  | [] => [x]
  | y :: l' => if (0 <? compare x y)%Z then y :: insert_by compare x l'
               else x :: y :: l'
  end.

Definition sort_by {A} (compare : A -> A -> Z) (l : list A) : list A :=
  foldr (insert_by compare) [] l.

(** [items.slice(start, end)] for integer bounds: a negative bound counts
    from the end, and both are clamped to the array. *)
Definition slice {A} (items : list A) (start stop : Z) : list A :=
  let len := Z.of_nat (length items) in
  let from :=
    if (start <? 0)%Z then Z.max (len + start) 0 else Z.min start len in
  let to :=
    if (stop <? 0)%Z then Z.max (len + stop) 0 else Z.min stop len in
  take (Z.to_nat (Z.max (to - from) 0)) (drop (Z.to_nat from) items).

Section DataTable.

(** [a < b] when an operand is not a number (two strings are compared by
    code units, other pairs after conversion to numbers).  It belongs to
    the language; the statements below that depend on a comparison are
    about numbers. *)
Variable less_than_other : value -> value -> bool.

Variable number_to_string : float -> string.

(** [a < b]; [a > b] is [less_than b a]. *)
Definition less_than (a b : value) : bool :=
  match a, b with
  | VNumber x, VNumber y => (x <? y)%float
  | _, _ => less_than_other a b
  end.

(** The comparator of [sortedData] for the sort key [k]. *)
Definition compareRows (k : string) (d : Direction) (a b : row) : Z :=
  let aVal := row_get a k in
  let bVal := row_get b k in
  if less_than aVal bVal then match d with asc => -1 | desc => 1 end
  else if less_than bVal aVal then match d with asc => 1 | desc => -1 end
  else 0.

(** [sortedData]: [data] itself when [sortConfig.key] is falsy ([null], or
    the empty name), a sorted copy otherwise. *)
Definition sortedData (sortConfig : SortConfig) (data : list row)
  : list row :=
  match key sortConfig with
  | None => data
  | Some k =>
      if String.eqb k "" then data
      else sort_by (compareRows k (direction sortConfig)) data
  end.

(** ** Pagination *)

Definition rowsPerPage : Z := 10.

(** [Math.ceil(sortedData.length / rowsPerPage)].  The quotient of a
    length by 10 is an integer or at least a tenth away from one, so the
    ceiling of the double quotient is the ceiling of the rational one. *)
Definition totalPages (rows : list row) : Z :=
  Qceiling (inject_Z (Z.of_nat (length rows)) / inject_Z rowsPerPage).

(** [currentPage] is an integer: it starts at 1 and is only changed by the
    two buttons below. *)
Definition paginatedData (rows : list row) (currentPage : Z) : list row :=
  slice rows ((currentPage - 1) * rowsPerPage) (currentPage * rowsPerPage).

(** The updates of the Previous and Next buttons:
    [p => Math.max(1, p - 1)] and [p => Math.min(totalPages, p + 1)]. *)
Definition previousPage (p : Z) : Z := Z.max 1 (p - 1).

Definition nextPage (total p : Z) : Z := Z.min total (p + 1).

(** ** Cells *)

(** [{...anomaly, tooltip}] *)
Record CellAnomalyInfo : Type := mkCellAnomalyInfo {
  anomaly : Anomaly;
  tooltip : string
}.

(** [getCellAnomalyInfo(row, col)] for the state [showAnomalies] and the
    memoised [anomalyAnalysis] ([None] is [null]).  [columnStats[col]] is
    the read [read_stats]: a column for which it gives no statistics
    object has no anomaly.  The tooltip is only computed for an anomaly,
    and an anomaly is a number. *)
Definition getCellAnomalyInfo (showAnomalies : bool)
    (anomalyAnalysis : option AnalysisResult) (r : row) (col : string)
  : option CellAnomalyInfo :=
  match showAnomalies, anomalyAnalysis with
  | true, Some analysis =>
      match columnStats analysis !! col with
      | Some (Some stats) =>
          let v := row_get r col in
          let anomaly := detectAnomaly v (Some stats) in
          if negb (isAnomaly anomaly) then None
          else
            match v with
            | VNumber x =>
                Some {| anomaly := anomaly;
                        tooltip :=
                          getAnomalyTooltip number_to_string anomaly
                            stats x |}
            | _ => None
            end
      | _ => None
      end
  | _, _ => None
  end.

Definition getCellClass (anomalyInfo : option CellAnomalyInfo) : string :=
  match anomalyInfo with
  | None => ""
  | Some info =>
      match severity (anomaly info) with
      | Some extreme =>
          match type (anomaly info) with
          | Some high => "anomaly-extreme-high"
          | _ => "anomaly-extreme-low"
          end
      | _ =>
          match type (anomaly info) with
          | Some high => "anomaly-mild-high"
          | _ => "anomaly-mild-low"
          end
      end
  end.

(** The controls above the table are rendered when
    [anomalyAnalysis && anomalyAnalysis.totalAnomalies > 0]. *)
Definition showsAnomalyControls (anomalyAnalysis : option AnalysisResult)
  : bool :=
  match anomalyAnalysis with
  | Some analysis => Nat.ltb 0 (totalAnomalies analysis)
  | None => false
  end.

End DataTable.

(** * Vocabulary of the properties *)

(** The comparator does not ask for [b] in front of [a]. *)
Definition in_order (a b : float) : Prop :=
  (0 <? comparator a b)%float = false.

(** [comparator a b > 0]: the sort puts [b] before [a]. *)
Definition comes_after (a b : float) : bool :=
  (0 <? comparator a b)%float.

(** The comparator puts the numbers of [l] in a strict total order: of two
    different numbers one comes after the other, and coming after is
    transitive.  (Doubles other than NaN are ordered this way by [a - b]
    as long as [+0] and [-0] are not both present: these two differ and
    neither comes after the other.) *)
Definition comparator_orders (l : list float) : bool :=
  forallb
    (fun a =>
       forallb
         (fun b =>
            (Leibniz.eqb a b || comes_after a b || comes_after b a) &&
            forallb
              (fun c =>
                 implb (comes_after a b && comes_after b c) (comes_after a c))
              l)
         l)
    l.

(** What the callbacks of analyzeDataset compute for a column when [data]
    is an array of rows. *)
Definition projected (data : list row) (col : string) : list value :=
  map (fun r => row_get r col) data.

Definition column_is_numeric (data : list row) (col : string) : bool :=
  existsb is_numeric (projected data col).

Definition column_statistics (data : list row) (col : string)
  : option Statistics :=
  calculateStatistics (projected data col).

Definition column_count (data : list row) (col : string) : nat :=
  fold_left
    (fun count r =>
       if isAnomaly (detectAnomaly (row_get r col) (column_statistics data col))
       then S count else count)
    data 0.

Definition record_column (data : list row)
    (maps : StatsObject * gmap string nat) (col : string)
  : StatsObject * gmap string nat :=
  (assign_stats col (column_statistics data col) (fst maps),
   assign_count col (column_count data col) (snd maps)).

(** The names under which anomalyCounts owns a count after the loop over
    [numeric]: each name once, [__proto__] left out. *)
Definition counted_columns (numeric : list string) : list string :=
  List.filter (fun c => negb (String.eqb c "__proto__")) (remove_dups numeric).

(** The real number that a double other than NaN and the infinities
    stands for. *)
Definition exact_value (x : float) : Q :=
  match Prim2SF x with
  | S754_finite s m e =>
      ((if s then -1 else 1) * inject_Z (Z.pos m) * 2 ^ e)%Q
  | _ => 0%Q
  end.

(** The arithmetic mean of the numbers of [l], as a real number. *)
Definition arithmetic_mean (l : list float) : Q :=
  (fold_right Qplus 0 (map exact_value l) /
   inject_Z (Z.of_nat (length l)))%Q.

Definition empty_result : AnalysisResult :=
  {| columnStats := ∅; anomalyCounts := ∅; numericColumns := [];
     totalAnomalies := 0 |}.

(** [part] occurs in [whole]. *)
Definition contains (part whole : string) : Prop :=
  exists before after, whole = before ++ part ++ after.

(** The statistics of Scenario A. *)
Definition statisticsA : Statistics :=
  {| q1 := 11; q3 := 13; iqr := 2; median := 12; mean := 146 / 5;
     min := 10; max := 100; lowerBound := 8; upperBound := 16;
     lowerExtreme := 5; upperExtreme := 19; count := 5 |}.

(** A table with the numbers of Scenario A in the column "temp" and a
    text column, and its analysis. *)
Definition tableA : list row :=
  map (fun v => {[ "temp" := v; "name" := VString "pump" ]}) scenarioA.

Definition resultA : AnalysisResult :=
  {| columnStats := {| own := {[ "temp" := Some statisticsA ]};
                       prototype := ObjectPrototype |};
     anomalyCounts := {[ "temp" := 1 ]};
     numericColumns := ["temp"];
     totalAnomalies := 1 |}.

(** The numbers of Scenario A in a column named [__proto__]: rows as
    [JSON.parse] builds them, which own a property of that name. *)
Definition tableP : list row :=
  map (fun v => {[ "__proto__" := v ]}) scenarioA.


(** A cell is highlighted: getCellAnomalyInfo answers an object. *)
Definition is_highlighted (info : option CellAnomalyInfo) : bool :=
  match info with Some _ => true | None => false end.

(** The two buttons under the table. *)
Inductive PageButton : Type := Previous | Next.

(** [currentPage] after a series of clicks, from the initial page 1. *)
Definition page_after (total : Z) (clicks : list PageButton) : Z :=
  fold_left
    (fun p button =>
       match button with
       | Previous => previousPage p
       | Next => nextPage total p
       end)
    clicks 1%Z.

(** The pages [1 .. totalPages] of the table, in order. *)
Definition all_pages (rows : list row) : list (list row) :=
  map (fun i => paginatedData rows (Z.of_nat i))
    (seq 1 (Z.to_nat (totalPages rows))).

(** A table of a single numeric column. *)
Definition column_table (col : string) (cells : list float) : list row :=
  map (fun x => {[ col := VNumber x ]}) cells.

(** Two rows that follow each other are in the order of the direction,
    by their numbers under the key [k]: ascending, the second is not less
    than the first; descending, it is not greater. *)
Definition key_in_order (k : string) (d : Direction) (a b : row) : Prop :=
  match row_get a k, row_get b k with
  | VNumber x, VNumber y =>
      match d with
      | asc => (y <? x)%float = false
      | desc => (x <? y)%float = false
      end
  | _, _ => False
  end.

(** The cell of [r] under [k] is a number other than NaN. *)
Definition has_number (k : string) (r : row) : Prop :=
  exists x, row_get r k = VNumber x /\ is_nan x = false.

(** * Properties *)

(** ** Arithmetic of the quartile indices *)

Lemma floor_index_quarter (n : nat) : floor_index n 0.25%Q = n / 4.
Proof.
  unfold floor_index, Qfloor, Qmult, inject_Z; cbn [Qnum Qden].
  change (Z.pos (1 * 100)) with (4 * 25)%Z.
  rewrite Z.div_mul_cancel_r by lia.
  change 4%Z with (Z.of_nat 4). now rewrite <- Nat2Z.inj_div, Nat2Z.id.
Qed.

Lemma floor_index_half (n : nat) : floor_index n 0.5%Q = n / 2.
Proof.
  unfold floor_index, Qfloor, Qmult, inject_Z; cbn [Qnum Qden].
  change (Z.pos (1 * 10)) with (2 * 5)%Z.
  rewrite Z.div_mul_cancel_r by lia.
  change 2%Z with (Z.of_nat 2). now rewrite <- Nat2Z.inj_div, Nat2Z.id.
Qed.

Lemma floor_index_three_quarters (n : nat) :
  floor_index n 0.75%Q = 3 * n / 4.
Proof.
  unfold floor_index, Qfloor, Qmult, inject_Z; cbn [Qnum Qden].
  change (Z.pos (1 * 100)) with (4 * 25)%Z.
  replace (Z.of_nat n * 75)%Z with (Z.of_nat (3 * n) * 25)%Z by lia.
  rewrite Z.div_mul_cancel_r by lia.
  change 4%Z with (Z.of_nat 4). now rewrite <- Nat2Z.inj_div, Nat2Z.id.
Qed.

(** Each index that calculateStatistics uses is a position of the sorted
    array. *)
Lemma floor_index_lt (n : nat) :
  0 < n ->
  floor_index n 0.25%Q < n /\ floor_index n 0.5%Q < n /\
  floor_index n 0.75%Q < n.
Proof.
  intros Hn.
  rewrite floor_index_quarter, floor_index_half, floor_index_three_quarters.
  repeat split; apply Nat.Div0.div_lt_upper_bound; lia.
Qed.

(** ** The filter *)

Lemma number_of_is_numeric (v : value) :
  is_numeric v = match number_of v with Some _ => true | None => false end.
Proof.
  destruct v as [| |b|x|s|]; simpl; try reflexivity.
  now destruct (is_nan x).
Qed.

Lemma numericValues_cons (v : value) (values : list value) :
  numericValues (v :: values) =
  match number_of v with
  | Some x => x :: numericValues values
  | None => numericValues values
  end.
Proof. reflexivity. Qed.

Lemma numericValues_length (values : list value) :
  length (numericValues values) = length (List.filter is_numeric values).
Proof.
  induction values as [|v values IH]; [reflexivity|].
  rewrite numericValues_cons. simpl List.filter.
  rewrite number_of_is_numeric.
  destruct (number_of v) as [x|]; simpl; now rewrite IH.
Qed.

Lemma numericValues_filter (values : list value) :
  numericValues (List.filter is_numeric values) = numericValues values.
Proof.
  induction values as [|v values IH]; [reflexivity|].
  simpl List.filter. rewrite number_of_is_numeric.
  destruct (number_of v) as [x|] eqn:E.
  - rewrite !numericValues_cons, E. now rewrite IH.
  - rewrite numericValues_cons, E. exact IH.
Qed.

Lemma numericValues_nil_iff (values : list value) :
  numericValues values = [] <-> existsb is_numeric values = false.
Proof.
  induction values as [|v values IH]; [easy|].
  rewrite numericValues_cons. simpl existsb. rewrite number_of_is_numeric.
  destruct (number_of v) as [x|]; simpl; [split; discriminate | exact IH].
Qed.

(** ** The sort *)

Lemma sort_insert_perm (x : float) (l : list float) :
  Permutation (sort_insert x l) (x :: l).
Proof.
  induction l as [|y l IH]; simpl; [reflexivity|].
  destruct (0 <? comparator x y)%float.
  - rewrite IH. apply perm_swap.
  - reflexivity.
Qed.

Lemma js_sort_perm (l : list float) : Permutation (js_sort l) l.
Proof.
  induction l as [|x l IH]; simpl; [reflexivity|].
  rewrite sort_insert_perm. now constructor.
Qed.

Lemma js_sort_length (l : list float) : length (js_sort l) = length l.
Proof. apply Permutation_length, js_sort_perm. Qed.

(** A negative exact result is never rounded to a positive number. *)
Lemma not_positive_rounded (m : positive) (e : Z) :
  SFltb (S754_zero false) (binary_round prec emax true m e) = false.
Proof.
  unfold binary_round.
  destruct (shl_align _ _ _) as [mz ez].
  unfold binary_round_aux.
  destruct (shr_fexp _ _ _ _ _) as [mrs' e'].
  destruct (shr_fexp _ _ _ _ _) as [mrs'' e''].
  destruct (shr_m mrs''); [reflexivity| |reflexivity].
  now destruct (Z.leb _ _).
Qed.

(** [a - b > 0] and [b - a > 0] exclude each other, for all doubles. *)
Lemma comparator_asym (x y : float) :
  (0 <? comparator x y)%float = true -> (0 <? comparator y x)%float = false.
Proof.
  unfold comparator. rewrite !ltb_spec, !sub_spec.
  change (Prim2SF 0) with (S754_zero false).
  destruct (Prim2SF x) as [sx|sx| |sx mx ex],
           (Prim2SF y) as [sy|sy| |sy my ey];
    try (unfold SF64sub, SFsub, SFltb, SFcompare;
         repeat match goal with b : bool |- _ => destruct b end;
         simpl; intros; congruence).
  unfold SF64sub, SFsub. rewrite (Z.min_comm ey ex).
  set (a := cond_Zopp sx _). set (b := cond_Zopp sy _).
  replace (b - a)%Z with (- (a - b))%Z by lia.
  destruct (a - b)%Z as [|d|d]; simpl Z.opp; unfold binary_normalize.
  - discriminate.
  - intros _. apply not_positive_rounded.
  - now rewrite not_positive_rounded.
Qed.

Lemma sort_insert_sorted (x : float) (l : list float) :
  Sorted in_order l -> Sorted in_order (sort_insert x l).
Proof.
  induction l as [|y l IH]; intros Hs; simpl.
  - repeat constructor.
  - destruct (0 <? comparator x y)%float eqn:E.
    + inversion Hs as [|? ? Hl Hhd]; subst.
      constructor; [now apply IH|].
      destruct l as [|z l]; simpl.
      * constructor. now apply comparator_asym.
      * destruct (0 <? comparator x z)%float.
        -- inversion Hhd; subst. now constructor.
        -- constructor. now apply comparator_asym.
    + constructor; [exact Hs|]. now constructor.
Qed.

Lemma js_sort_sorted (l : list float) : Sorted in_order (js_sort l).
Proof.
  induction l as [|x l IH]; simpl; [constructor|].
  now apply sort_insert_sorted.
Qed.

(** ** calculateStatistics *)

Lemma calculateStatistics_filtered (values : list value) :
  calculateStatistics (List.filter is_numeric values) =
  calculateStatistics values.
Proof. unfold calculateStatistics. now rewrite numericValues_filter. Qed.

Lemma calculateStatistics_None (values : list value) :
  calculateStatistics values = None <-> numericValues values = [].
Proof.
  unfold calculateStatistics.
  destruct (numericValues values) as [|x l]; simpl; [easy|].
  split; discriminate.
Qed.

Lemma calculateStatistics_count (values : list value) (st : Statistics) :
  calculateStatistics values = Some st ->
  count st = length (numericValues values) /\ 0 < count st.
Proof.
  unfold calculateStatistics.
  destruct (numericValues values) as [|x l] eqn:E; [discriminate|].
  cbn [length Nat.eqb]. intros [= <-]. cbn [count].
  change (sort_insert x (js_sort l)) with (js_sort (x :: l)).
  rewrite js_sort_length. simpl. lia.
Qed.

Lemma js_nth_lookup (l : list float) (i : nat) :
  i < length l -> l !! i = Some (js_nth l i).
Proof.
  intros Hi. unfold js_nth.
  destruct (nth_lookup_or_length l i nan) as [H|H]; [exact H|lia].
Qed.

(** C2, as the code has it (numbers other than NaN are kept, the
    infinities included): calculateStatistics computes over the elements
    that are of type number and not NaN, the result is null exactly when
    there is none, and otherwise count is their number; on
    [5, "x", null, NaN, 10] the statistics are those of [5, 10] and count
    is 2. *)
Theorem calculateStatistics_filters :
  (forall values : list value,
     calculateStatistics values =
       calculateStatistics (List.filter is_numeric values) /\
     match calculateStatistics values with
     | None => List.filter is_numeric values = []
     | Some st =>
         count st = length (List.filter is_numeric values) /\ 0 < count st
     end) /\
  calculateStatistics
    [VNumber 5; VString "x"; VNull; VNumber nan; VNumber 10] =
    calculateStatistics [VNumber 5; VNumber 10] /\
  exists st,
    calculateStatistics
      [VNumber 5; VString "x"; VNull; VNumber nan; VNumber 10] = Some st /\
    count st = 2.
Proof.
  split; [|split; [reflexivity | eexists; split; reflexivity]].
  intros values. split; [now rewrite calculateStatistics_filtered|].
  destruct (calculateStatistics values) as [st|] eqn:E.
  - apply calculateStatistics_count in E.
    now rewrite <- numericValues_length.
  - apply calculateStatistics_None in E.
    apply length_zero_iff_nil. rewrite <- numericValues_length, E.
    reflexivity.
Qed.

(** C2 fails as stated: an infinity is a number and is not NaN, so it is
    kept.  The input [Infinity] holds no finite number, yet the result is
    not null and its count is 1. *)
Lemma calculateStatistics_counts_infinity :
  List.filter is_finite_number [VNumber infinity] = [] /\
  exists st,
    calculateStatistics [VNumber infinity] = Some st /\ count st = 1.
Proof. split; [reflexivity | eexists; split; reflexivity]. Qed.

(** C4, as the code has it: for an input with at least one number, with
    [sorted] the sorted array of the numbers kept by the filter (a
    rearrangement of them that the comparator finds in order) and [n] its
    length, calculateStatistics returns
    [q1 = sorted[floor(n*0.25)]], [median = sorted[floor(n*0.5)]],
    [q3 = sorted[floor(n*0.75)]], each an element of the array,
    [iqr = q3 - q1], the four fences at 1.5 and 3 times [iqr],
    [min = sorted[0]], [max = sorted[n-1]], and for [mean] the doubles
    [((0 + v1) + v2) + ... + vn], added one after the other in the order of
    the input, each sum rounded, divided by [n].
    On [10, 12, 11, 13, 100]: q1 = 11, median = 12, q3 = 13, iqr = 2,
    fences 8, 16 and 5, 19, mean 146/5 = 29.2, min 10, max 100, and 100 is
    an extreme high anomaly. *)
Theorem calculateStatistics_quartiles :
  (forall values : list value,
     numericValues values <> [] ->
     let sorted := js_sort (numericValues values) in
     let n := length sorted in
     Permutation sorted (numericValues values) /\
     Sorted in_order sorted /\
     exists st,
       calculateStatistics values = Some st /\
       sorted !! floor_index n 0.25%Q = Some (q1 st) /\
       sorted !! floor_index n 0.5%Q = Some (median st) /\
       sorted !! floor_index n 0.75%Q = Some (q3 st) /\
       iqr st = (q3 st - q1 st)%float /\
       lowerBound st = (q1 st - 1.5 * iqr st)%float /\
       upperBound st = (q3 st + 1.5 * iqr st)%float /\
       lowerExtreme st = (q1 st - 3 * iqr st)%float /\
       upperExtreme st = (q3 st + 3 * iqr st)%float /\
       mean st =
         (fold_left (fun a b => a + b) (numericValues values) 0 /
          float_of_nat n)%float /\
       sorted !! 0 = Some (min st) /\
       sorted !! (n - 1) = Some (max st) /\
       count st = n) /\
  exists st,
    calculateStatistics scenarioA = Some st /\
    js_sort (numericValues scenarioA) = [10; 11; 12; 13; 100]%float /\
    q1 st = 11%float /\ median st = 12%float /\ q3 st = 13%float /\
    iqr st = 2%float /\
    lowerBound st = 8%float /\ upperBound st = 16%float /\
    lowerExtreme st = 5%float /\ upperExtreme st = 19%float /\
    mean st = (146 / 5)%float /\
    min st = 10%float /\ max st = 100%float /\ count st = 5 /\
    detectAnomaly (VNumber 100) (Some st) =
      {| isAnomaly := true; type := Some high; severity := Some extreme |}.
Proof.
  split.
  - intros values Hne sorted n.
    split; [apply js_sort_perm|]. split; [apply js_sort_sorted|].
    assert (Hn : 0 < n).
    { subst n sorted. rewrite js_sort_length.
      destruct (numericValues values); [congruence | simpl; lia]. }
    destruct (floor_index_lt n Hn) as (H1 & H2 & H3).
    unfold calculateStatistics.
    destruct (Nat.eqb_spec (length (numericValues values)) 0) as [E|_].
    { apply length_zero_iff_nil in E. congruence. }
    fold sorted. fold n. eexists. split; [reflexivity|]. cbn.
    repeat split; try reflexivity; apply js_nth_lookup; fold n; lia.
  - eexists. split; [reflexivity|]. repeat split; reflexivity.
Qed.

(** The instance of C4 at Scenario A: the element at index 1 of the
    sorted array is q1, the sum 146 divided by 5 is the mean. *)
Lemma calculateStatistics_quartiles_scenarioA :
  numericValues scenarioA <> [] /\
  exists st,
    calculateStatistics scenarioA = Some st /\
    js_sort (numericValues scenarioA) !! 1 = Some (q1 st) /\
    mean st = (146 / 5)%float /\
    count st = 5.
Proof.
  assert (Hne : numericValues scenarioA <> []) by discriminate.
  split; [exact Hne|].
  destruct (proj1 calculateStatistics_quartiles scenarioA Hne)
    as (_ & _ & st & Hst & Hq1 & _ & _ & _ & _ & _ & _ & _ & Hm & _ & _ & Hc).
  exists st. split; [exact Hst|]. split; [exact Hq1|].
  split; [rewrite Hm; reflexivity | exact Hc].
Defined.

(** C4 fails as stated for the mean: the sum is rounded at every
    addition, so the result need not be the arithmetic mean of the
    numbers, nor the double nearest to it.  The numbers [1e16, 1, -1e16]
    have the arithmetic mean 1/3; the code adds 1 to 1e16 without effect
    and answers the mean 0. *)
Lemma calculateStatistics_mean_is_rounded :
  exists st,
    calculateStatistics [VNumber 1e16; VNumber 1; VNumber (-1e16)] =
      Some st /\
    mean st = 0%float /\
    (arithmetic_mean [1e16; 1; -1e16]%float == 1 # 3)%Q /\
    ~ (exact_value (mean st) == arithmetic_mean [1e16; 1; -1e16]%float)%Q /\
    mean st <> (1 / 3)%float.
Proof.
  eexists. split; [reflexivity|]. split; [reflexivity|].
  split; [reflexivity|]. split.
  - intros H. vm_compute in H. discriminate.
  - intros H. apply (f_equal (fun x => (x =? 0)%float)) in H.
    vm_compute in H. discriminate.
Qed.

(** ** detectAnomaly *)

(** C5, as the code has it (the guard lets every number other than NaN
    through, the infinities included): detectAnomaly answers one of five
    outcomes; without statistics, or for a value that is not of type
    number or is NaN, it answers [{false, null, null}]; otherwise the
    four comparisons are tried in order, extreme before mild, low before
    high, and the first that holds decides; and isAnomaly is false exactly
    when type and severity are both null. *)
Theorem detectAnomaly_classification (v : value) (stats : option Statistics) :
  let r := detectAnomaly v stats in
  (r = no_anomaly \/
   r = {| isAnomaly := true; type := Some low; severity := Some extreme |} \/
   r = {| isAnomaly := true; type := Some high; severity := Some extreme |} \/
   r = {| isAnomaly := true; type := Some low; severity := Some mild |} \/
   r = {| isAnomaly := true; type := Some high; severity := Some mild |}) /\
  (stats = None \/ is_numeric v = false -> r = no_anomaly) /\
  (forall st x,
     stats = Some st -> v = VNumber x -> is_nan x = false ->
     r =
       if (x <? lowerExtreme st)%float then
         {| isAnomaly := true; type := Some low; severity := Some extreme |}
       else if (upperExtreme st <? x)%float then
         {| isAnomaly := true; type := Some high; severity := Some extreme |}
       else if (x <? lowerBound st)%float then
         {| isAnomaly := true; type := Some low; severity := Some mild |}
       else if (upperBound st <? x)%float then
         {| isAnomaly := true; type := Some high; severity := Some mild |}
       else no_anomaly) /\
  (isAnomaly r = false <-> severity r = None /\ type r = None).
Proof.
  unfold detectAnomaly. cbv zeta.
  destruct stats as [st|], v as [| |b|x|s|]; simpl;
    try (intuition (try congruence); fail).
  destruct (is_nan x) eqn:Hnan; [intuition congruence|].
  destruct (x <? lowerExtreme st)%float eqn:E1;
    [|destruct (upperExtreme st <? x)%float eqn:E2;
      [|destruct (x <? lowerBound st)%float eqn:E3;
        [|destruct (upperBound st <? x)%float eqn:E4]]];
    simpl;
    (repeat split; try (intuition congruence);
     intros st' x' [= <-] [= <-] _;
     rewrite ?E1, ?E2, ?E3, ?E4; reflexivity).
Qed.

(** C5 fails as stated: [Infinity] is not a finite number, yet with the
    statistics of Scenario A it is classified as an extreme high
    anomaly. *)
Lemma detectAnomaly_classifies_infinity :
  is_finite_number (VNumber infinity) = false /\
  detectAnomaly (VNumber infinity) (calculateStatistics scenarioA) =
    {| isAnomaly := true; type := Some high; severity := Some extreme |}.
Proof. split; reflexivity. Qed.

(** ** analyzeDataset on arrays *)

Lemma filter_callback_Return {A} (callback : A -> outcome bool)
    (f : A -> bool) (items : list A) :
  (forall x, callback x = Return (f x)) ->
  filter_callback callback items = Return (List.filter f items).
Proof.
  intros Hf. induction items as [|x items IH]; [reflexivity|].
  simpl. rewrite Hf, IH. simpl. now destruct (f x).
Qed.

Lemma forEach_callback_Return {A S} (callback : S -> A -> outcome S)
    (f : S -> A -> S) (items : list A) (s : S) :
  (forall s x, callback s x = Return (f s x)) ->
  forEach_callback callback items s = Return (fold_left f items s).
Proof.
  intros Hf. revert s. induction items as [|x items IH]; intros s;
    [reflexivity|].
  simpl. rewrite Hf. simpl. apply IH.
Qed.

(** With arrays for both arguments nothing throws, and the result is the
    fold of [record_column] over the columns kept by the filter. *)
Lemma analyzeDataset_arrays (data : list row) (columns : list string) :
  let numeric := List.filter (column_is_numeric data) columns in
  let maps := fold_left (record_column data) numeric (∅, ∅) in
  analyzeDataset (AArray data) (AArray columns) =
  Return {| columnStats := fst maps; anomalyCounts := snd maps;
            numericColumns := numeric;
            totalAnomalies := sum_values (snd maps) |}.
Proof.
  intros numeric maps. unfold analyzeDataset. simpl.
  rewrite (filter_callback_Return _ (column_is_numeric data))
    by reflexivity.
  simpl. fold numeric.
  rewrite (forEach_callback_Return _ (record_column data)).
  - reflexivity.
  - intros s col. unfold count_anomalies. simpl.
    now rewrite (forEach_callback_Return _
      (fun count r =>
         if isAnomaly
              (detectAnomaly (row_get r col) (column_statistics data col))
         then S count else count)).
Qed.

(** *** Reading the dictionaries *)

Lemma lookup_read_stats (obj : StatsObject) (col : string) :
  obj !! col = read_stats obj col.
Proof. reflexivity. Qed.

Lemma lookup_stats_empty (col : string) : (∅ : StatsObject) !! col = None.
Proof.
  rewrite lookup_read_stats. unfold read_stats. cbn [own empty StatsObject_empty].
  rewrite lookup_empty. now destruct (String.eqb col "__proto__").
Qed.

(** After [obj[c] = st] for a statistics object [st], [obj[c]] reads [st],
    also when [c] is [__proto__]; the other names read as before. *)
Lemma lookup_assign_stats (c : string) (st : Statistics) (obj : StatsObject)
    (col : string) :
  assign_stats c (Some st) obj !! col =
  if decide (col = c) then Some (Some st) else obj !! col.
Proof.
  rewrite !lookup_read_stats. unfold assign_stats.
  assert (Hstore : read_stats
                     {| own := <[c := Some st]> (own obj);
                        prototype := prototype obj |} col =
                   if decide (col = c) then Some (Some st)
                   else read_stats obj col).
  { unfold read_stats. cbn [own prototype].
    destruct (decide (col = c)) as [->|Hne].
    - now rewrite lookup_insert_eq.
    - rewrite lookup_insert_ne by congruence. reflexivity. }
  destruct (own obj !! c) eqn:Hc; [exact Hstore|].
  destruct (String.eqb_spec c "__proto__") as [->|Hp]; cbn [andb];
    [|exact Hstore].
  destruct (inherits_proto_accessor (prototype obj)); [|exact Hstore].
  unfold read_stats. cbn [own prototype].
  destruct (decide (col = "__proto__")) as [->|Hne].
  - now rewrite Hc.
  - destruct (own obj !! col); [reflexivity|].
    now destruct (String.eqb_spec col "__proto__").
Qed.

(** The own properties after [obj[c] = st]: [c] is added unless it is
    [__proto__]. *)
Lemma own_assign_stats (c : string) (st : Statistics) (obj : StatsObject)
    (col : string) :
  own obj !! "__proto__" = None ->
  inherits_proto_accessor (prototype obj) = true ->
  own (assign_stats c (Some st) obj) !! "__proto__" = None /\
  inherits_proto_accessor (prototype (assign_stats c (Some st) obj)) = true /\
  own (assign_stats c (Some st) obj) !! col =
  if decide (col = c /\ col <> "__proto__") then Some (Some st)
  else own obj !! col.
Proof.
  intros Hown Hacc. unfold assign_stats.
  destruct (String.eqb_spec c "__proto__") as [->|Hp].
  - rewrite Hown, Hacc. cbn [andb own prototype inherits_proto_accessor].
    split; [exact Hown|]. split; [reflexivity|].
    now rewrite decide_False by tauto.
  - assert (Hstore : <[c := Some st]> (own obj) !! "__proto__" = None /\
                     <[c := Some st]> (own obj) !! col =
                     if decide (col = c /\ col <> "__proto__")
                     then Some (Some st) else own obj !! col).
    { split; [now rewrite lookup_insert_ne by congruence|].
      destruct (decide (col = c)) as [->|Hne].
      - rewrite decide_True by tauto. now rewrite lookup_insert_eq.
      - rewrite decide_False by tauto.
        now rewrite lookup_insert_ne by congruence. }
    destruct Hstore as [H1 H2].
    destruct (own obj !! c); cbn [andb own prototype]; tauto.
Qed.

(** After [obj[c] = n] on an object without own [__proto__], [obj[c]] is
    [n] unless [c] is [__proto__], which stays absent. *)
Lemma lookup_assign_count (c : string) (n : nat) (obj : gmap string nat)
    (col : string) :
  obj !! "__proto__" = None ->
  assign_count c n obj !! col =
  if decide (col = c /\ col <> "__proto__") then Some n else obj !! col.
Proof.
  intros Hown. unfold assign_count.
  destruct (String.eqb_spec c "__proto__") as [->|Hp].
  - rewrite Hown. now rewrite decide_False by tauto.
  - assert (Hstore : <[c := n]> obj !! col =
                     if decide (col = c /\ col <> "__proto__") then Some n
                     else obj !! col).
    { destruct (decide (col = c)) as [->|Hne].
      - rewrite decide_True by tauto. now rewrite lookup_insert_eq.
      - rewrite decide_False by tauto.
        now rewrite lookup_insert_ne by congruence. }
    now destruct (obj !! c).
Qed.

Lemma record_column_stats (data : list row) (cols : list string)
    (maps : StatsObject * gmap string nat) (col : string) :
  (forall c, c ∈ cols -> is_Some (column_statistics data c)) ->
  fst (fold_left (record_column data) cols maps) !! col =
  if decide (col ∈ cols) then Some (column_statistics data col)
  else fst maps !! col.
Proof.
  revert maps. induction cols as [|c cols IH]; intros maps Hst.
  - reflexivity.
  - cbn [fold_left]. rewrite IH by (intros c' Hc'; apply Hst; now right).
    cbn [record_column fst snd].
    destruct (decide (col ∈ cols)) as [Hin|Hnin].
    + rewrite decide_True by (now right). reflexivity.
    + destruct (Hst c) as [st Hc]; [left|]. rewrite Hc, lookup_assign_stats.
      destruct (decide (col = c)) as [->|Hne].
      * rewrite decide_True by left. now rewrite Hc.
      * rewrite decide_False by (rewrite elem_of_cons; tauto). reflexivity.
Qed.

Lemma record_column_own (data : list row) (cols : list string)
    (maps : StatsObject * gmap string nat) (col : string) :
  (forall c, c ∈ cols -> is_Some (column_statistics data c)) ->
  own (fst maps) !! "__proto__" = None ->
  inherits_proto_accessor (prototype (fst maps)) = true ->
  own (fst (fold_left (record_column data) cols maps)) !! col =
  if decide (col ∈ cols /\ col <> "__proto__")
  then Some (column_statistics data col)
  else own (fst maps) !! col.
Proof.
  revert maps. induction cols as [|c cols IH]; intros maps Hst Hown Hacc.
  - now rewrite decide_False by (rewrite elem_of_nil; tauto).
  - cbn [fold_left].
    destruct (Hst c) as [st Hc]; [left|].
    destruct (own_assign_stats c st (fst maps) col Hown Hacc)
      as (Hown' & Hacc' & Hcol).
    rewrite IH; cbn [record_column fst snd]; rewrite ?Hc;
      [|intros c' Hc'; apply Hst; now right|exact Hown'|exact Hacc'].
    destruct (decide (col ∈ cols /\ col <> "__proto__")) as [[Hin Hp]|Hnin].
    + rewrite decide_True; [reflexivity|]. split; [now right | exact Hp].
    + rewrite Hcol.
      destruct (decide (col = c /\ col <> "__proto__")) as [[-> Hp]|Hne].
      * rewrite decide_True by (split; [left | exact Hp]). now rewrite Hc.
      * rewrite decide_False; [reflexivity|].
        rewrite elem_of_cons. tauto.
Qed.

Lemma record_column_counts (data : list row) (cols : list string)
    (maps : StatsObject * gmap string nat) (col : string) :
  snd maps !! "__proto__" = None ->
  snd (fold_left (record_column data) cols maps) !! col =
  if decide (col ∈ cols /\ col <> "__proto__")
  then Some (column_count data col)
  else snd maps !! col.
Proof.
  revert maps. induction cols as [|c cols IH]; intros maps Hown.
  - now rewrite decide_False by (rewrite elem_of_nil; tauto).
  - cbn [fold_left].
    pose proof (lookup_assign_count c (column_count data c) (snd maps))
      as Hstep.
    rewrite IH; cbn [record_column fst snd].
    2:{ rewrite Hstep by exact Hown. now rewrite decide_False by tauto. }
    destruct (decide (col ∈ cols /\ col <> "__proto__")) as [[Hin Hp]|Hnin].
    + rewrite decide_True; [reflexivity|]. split; [now right | exact Hp].
    + rewrite Hstep by exact Hown.
      destruct (decide (col = c /\ col <> "__proto__")) as [[-> Hp]|Hne].
      * now rewrite decide_True by (split; [left | exact Hp]).
      * rewrite decide_False; [reflexivity|].
        rewrite elem_of_cons. tauto.
Qed.

Lemma column_is_numeric_spec (data : list row) (col : string) :
  column_is_numeric data col = true <->
  exists r, r ∈ data /\ is_numeric (row_get r col) = true.
Proof.
  unfold column_is_numeric, projected. rewrite existsb_exists. split.
  - intros (v & Hin & Hv). apply in_map_iff in Hin as (r & <- & Hr).
    exists r. split; [now apply list_elem_of_In | exact Hv].
  - intros (r & Hr & Hv). exists (row_get r col). split; [|exact Hv].
    apply (in_map (fun r => row_get r col)). now apply list_elem_of_In.
Qed.

Lemma elem_of_filter_bool {A} (f : A -> bool) (l : list A) (x : A) :
  x ∈ List.filter f l <-> x ∈ l /\ f x = true.
Proof. rewrite !list_elem_of_In. apply filter_In. Qed.

Lemma sublist_filter_bool {A} (f : A -> bool) (l : list A) :
  sublist (List.filter f l) l.
Proof.
  induction l as [|x l IH]; simpl; [constructor|].
  destruct (f x); now constructor.
Qed.

Lemma column_statistics_numeric (data : list row) (col : string) :
  column_is_numeric data col = true ->
  exists st, column_statistics data col = Some st /\ 0 < count st.
Proof.
  unfold column_is_numeric, column_statistics. intros H.
  destruct (calculateStatistics (projected data col)) as [st|] eqn:E.
  - exists st. split; [reflexivity|]. now apply calculateStatistics_count in E.
  - apply calculateStatistics_None, numericValues_nil_iff in E. congruence.
Qed.

(** The dictionaries that analyzeDataset builds for arrays, by name. *)
Lemma numeric_columns_have_statistics (data : list row)
    (columns : list string) (c : string) :
  c ∈ List.filter (column_is_numeric data) columns ->
  is_Some (column_statistics data c).
Proof.
  intros Hc. apply elem_of_filter_bool in Hc as [_ Hnum].
  destruct (column_statistics_numeric data c Hnum) as (st & Hst & _). eauto.
Qed.

Lemma analysis_stats (data : list row) (columns : list string)
    (col : string) :
  fst (fold_left (record_column data)
         (List.filter (column_is_numeric data) columns) (∅, ∅)) !! col =
  if decide (col ∈ List.filter (column_is_numeric data) columns)
  then Some (column_statistics data col) else None.
Proof.
  rewrite record_column_stats
    by apply numeric_columns_have_statistics.
  case_decide; [reflexivity|]. apply lookup_stats_empty.
Qed.

Lemma analysis_own_stats (data : list row) (columns : list string)
    (col : string) :
  own (fst (fold_left (record_column data)
              (List.filter (column_is_numeric data) columns) (∅, ∅))) !! col =
  if decide (col ∈ List.filter (column_is_numeric data) columns /\
             col <> "__proto__")
  then Some (column_statistics data col) else None.
Proof.
  rewrite record_column_own;
    [|apply numeric_columns_have_statistics|reflexivity|reflexivity].
  case_decide; [reflexivity|]. apply lookup_empty.
Qed.

Lemma analysis_counts (data : list row) (cols : list string) (col : string) :
  snd (fold_left (record_column data) cols (∅, ∅)) !! col =
  if decide (col ∈ cols /\ col <> "__proto__")
  then Some (column_count data col) else None.
Proof.
  rewrite record_column_counts by reflexivity.
  case_decide; [reflexivity|]. apply lookup_empty.
Qed.

Lemma filter_bool_none {A} (f : A -> bool) (l : list A) :
  (forall x, f x = false) -> List.filter f l = [].
Proof.
  intros Hf. induction l as [|x l IH]; simpl; [reflexivity|].
  now rewrite Hf.
Qed.

Lemma filter_bool_absorb {A} (f g : A -> bool) (l : list A) :
  (forall x, f x = true -> g x = true) ->
  List.filter f (List.filter g l) = List.filter f l.
Proof.
  intros Hfg. induction l as [|x l IH]; simpl; [reflexivity|].
  destruct (g x) eqn:Eg; simpl.
  - now rewrite IH.
  - destruct (f x) eqn:Ef; [|exact IH].
    apply Hfg in Ef. congruence.
Qed.

(** ** Malformed input *)

(** C1, as the code has it.  analyzeDataset itself answers, without an
    exception, the empty result (no statistics, no counts, no numeric
    column, totalAnomalies 0) when [columns] is an empty array, whatever
    [data] is, and when [data] is an empty array and [columns] an array.
    The null result belongs to the caller: the guard of DataTable answers
    null, without calling the analyzer, when [data] is undefined, null or
    an empty array, and when [columns] is undefined or null. *)
Theorem analysis_of_malformed_input :
  (forall data : jsarg row,
     analyzeDataset data (AArray []) = Return empty_result) /\
  (forall columns : list string,
     analyzeDataset (AArray []) (AArray columns) = Return empty_result) /\
  (forall columns : jsarg string,
     anomalyAnalysis AUndefined columns = Return None /\
     anomalyAnalysis ANull columns = Return None /\
     anomalyAnalysis (AArray []) columns = Return None) /\
  (forall data : jsarg row,
     anomalyAnalysis data AUndefined = Return None /\
     anomalyAnalysis data ANull = Return None).
Proof.
  repeat split; try reflexivity.
  - intros columns. rewrite analyzeDataset_arrays. cbv zeta.
    now rewrite (filter_bool_none (column_is_numeric [])).
  - unfold anomalyAnalysis. simpl falsy. now rewrite orb_true_r.
  - unfold anomalyAnalysis. simpl falsy. now rewrite orb_true_r.
Qed.

(** C1 fails as stated for analyzeDataset: with [columns] absent the
    call throws, although [data] is empty; and so does a [data] that is
    not an array when there is a column to look at (the guard of DataTable
    lets such a [data] through). *)
Lemma analyzeDataset_throws :
  analyzeDataset (AArray []) AUndefined = Throw TypeError /\
  analyzeDataset (ANumber 5) (AArray ["temp"]) = Throw TypeError /\
  anomalyAnalysis (ANumber 5) (AArray ["temp"]) = Throw TypeError.
Proof. repeat split; reflexivity. Qed.

(** ** Numeric columns *)

(** C3, as the code has it (a column is numeric when one of its cells is a
    number other than NaN, an infinity included): numericColumns is a
    subsequence of [columns]; a column is in it exactly when it is listed
    and some row holds such a number in it; a column whose cells are all
    strings is not in numericColumns, has no entry in columnStats nor in
    anomalyCounts, and adds nothing to the result: the analysis without
    that column is the same. *)
Theorem numericColumns_characterisation
    (data : list row) (columns : list string) :
  exists r,
    analyzeDataset (AArray data) (AArray columns) = Return r /\
    sublist (numericColumns r) columns /\
    (forall col,
       col ∈ numericColumns r <->
       col ∈ columns /\
       exists row, row ∈ data /\ is_numeric (row_get row col) = true) /\
    (forall col,
       (forall row, row ∈ data -> exists s, row_get row col = VString s) ->
       (col ∉ numericColumns r) /\
       columnStats r !! col = None /\
       anomalyCounts r !! col = None /\
       analyzeDataset (AArray data)
         (AArray (List.filter (fun c => negb (String.eqb c col)) columns)) =
       Return r).
Proof.
  eexists. split; [apply analyzeDataset_arrays|].
  cbn [numericColumns columnStats anomalyCounts totalAnomalies].
  split; [apply sublist_filter_bool|].
  split.
  - intros col. rewrite elem_of_filter_bool, column_is_numeric_spec.
    reflexivity.
  - intros col Hstr.
    assert (Hcol : column_is_numeric data col = false).
    { apply not_true_is_false. rewrite column_is_numeric_spec.
      intros (row & Hrow & Hnum). destruct (Hstr row Hrow) as [s Hs].
      rewrite Hs in Hnum. discriminate. }
    assert (Hnin : col ∉ List.filter (column_is_numeric data) columns).
    { rewrite elem_of_filter_bool. intros [_ H]. congruence. }
    split; [exact Hnin|].
    rewrite analysis_stats, analysis_counts.
    rewrite decide_False by exact Hnin. rewrite decide_False by tauto.
    split; [reflexivity|]. split; [reflexivity|].
    rewrite analyzeDataset_arrays. cbv zeta.
    rewrite filter_bool_absorb; [reflexivity|].
    intros c Hc. destruct (String.eqb_spec c col) as [->|_];
      [congruence | reflexivity].
Qed.

(** C3 fails as stated: a column whose only value is [Infinity] holds no
    finite number and is listed in numericColumns. *)
Lemma infinite_column_is_numeric :
  exists r,
    analyzeDataset (AArray [{[ "a" := VNumber infinity ]}]) (AArray ["a"]) =
      Return r /\
    numericColumns r = ["a"] /\
    is_finite_number (row_get {[ "a" := VNumber infinity ]} "a") = false.
Proof. eexists. repeat split; reflexivity. Qed.

(** C10, as the code behaves.  On arrays, the own keys of columnStats and
    of anomalyCounts are the columns of numericColumns other than
    [__proto__]; every column of numericColumns has statistics with a
    count of at least 1, which [columnStats[col]] reads, an own property
    for every name but [__proto__].  For a numeric column named
    [__proto__] neither object gets a key: the statistics replace the
    prototype of columnStats and the count is dropped.  On the numbers of
    Scenario A under that name, numericColumns lists the column, both
    objects are without keys and totalAnomalies is 0, although the cell
    100 is flagged; the table highlights that cell and shows no anomaly
    controls. *)
Theorem analysis_maps_miss_proto_column :
  (forall (data : list row) (columns : list string),
     exists r,
       analyzeDataset (AArray data) (AArray columns) = Return r /\
       dom (own (columnStats r)) =@{gset string}
         list_to_set (numericColumns r) ∖ {[ "__proto__" ]} /\
       dom (anomalyCounts r) =@{gset string}
         list_to_set (numericColumns r) ∖ {[ "__proto__" ]} /\
       forall col,
         col ∈ numericColumns r ->
         exists st,
           columnStats r !! col = Some (Some st) /\ 1 <= count st /\
           (col <> "__proto__" ->
            own (columnStats r) !! col = Some (Some st))) /\
  exists r,
    analyzeDataset (AArray tableP) (AArray ["__proto__"]) = Return r /\
    numericColumns r = ["__proto__"] /\
    own (columnStats r) = ∅ /\
    prototype (columnStats r) = StatisticsPrototype statisticsA /\
    anomalyCounts r = ∅ /\
    totalAnomalies r = 0 /\
    column_count tableP "__proto__" = 1 /\
    is_highlighted
      (getCellAnomalyInfo (fun _ => "") true (Some r)
         {[ "__proto__" := VNumber 100 ]} "__proto__") = true /\
    showsAnomalyControls (Some r) = false.
Proof.
  split.
  - intros data columns.
    eexists. split; [apply analyzeDataset_arrays|].
    cbn [numericColumns columnStats anomalyCounts totalAnomalies].
    split; [|split].
    + apply set_eq. intros col.
      rewrite elem_of_dom, elem_of_difference, elem_of_list_to_set,
        elem_of_singleton, analysis_own_stats.
      case_decide; split; intros H'; try tauto; eauto; now destruct H'.
    + apply set_eq. intros col.
      rewrite elem_of_dom, elem_of_difference, elem_of_list_to_set,
        elem_of_singleton, analysis_counts.
      case_decide; split; intros H'; try tauto; eauto; now destruct H'.
    + intros col Hcol.
      rewrite analysis_stats, analysis_own_stats.
      rewrite decide_True by exact Hcol.
      apply elem_of_filter_bool in Hcol as [Hin Hnum].
      destruct (column_statistics_numeric data col Hnum) as (st & Hst & Hc).
      exists st. rewrite Hst. split; [reflexivity|]. split; [lia|].
      intros Hp. rewrite decide_True; [reflexivity|].
      split; [|exact Hp]. apply elem_of_filter_bool. now split.
  - eexists. split; [reflexivity|]. repeat split; reflexivity.
Qed.

(** ** Counts *)

Lemma fold_left_add_sum_list (l : list nat) (a : nat) :
  fold_left Nat.add l a = a + sum_list l.
Proof.
  revert a. induction l as [|x l IH]; intros a; simpl; [lia|].
  rewrite IH. lia.
Qed.

Lemma sum_values_sum_list (counts : gmap string nat) :
  sum_values counts = sum_list (snd <$> map_to_list counts).
Proof. unfold sum_values. now rewrite fold_left_add_sum_list. Qed.

(** The sum of the values of a map is the sum of its entries at the keys,
    each key taken once. *)
Lemma sum_values_over_keys (counts : gmap string nat) (keys : list string) :
  NoDup keys ->
  (forall k, k ∈ keys <-> is_Some (counts !! k)) ->
  sum_values counts =
  sum_list ((fun k => default 0 (counts !! k)) <$> keys).
Proof.
  intros Hnd Hkeys. rewrite sum_values_sum_list.
  assert (Hperm : map_to_list counts ≡ₚ
                  (fun k => (k, default 0 (counts !! k))) <$> keys).
  { apply NoDup_Permutation.
    - apply NoDup_map_to_list.
    - apply NoDup_fmap_2; [|exact Hnd]. intros k1 k2 [=]. assumption.
    - intros [k v]. rewrite elem_of_map_to_list, list_elem_of_fmap. split.
      + intros Hkv. exists k. rewrite Hkv. split; [reflexivity|].
        apply Hkeys. eauto.
      + intros (k' & [= -> ->] & Hin).
        apply Hkeys in Hin as [v Hv]. now rewrite Hv. }
  rewrite Hperm, <- list_fmap_compose. reflexivity.
Qed.


Lemma counted_columns_NoDup (numeric : list string) :
  NoDup (counted_columns numeric).
Proof.
  apply (sublist_NoDup _ (remove_dups numeric));
    [apply NoDup_remove_dups | apply sublist_filter_bool].
Qed.

Lemma elem_of_counted_columns (numeric : list string) (c : string) :
  c ∈ counted_columns numeric <-> c ∈ numeric /\ c <> "__proto__".
Proof.
  unfold counted_columns.
  rewrite elem_of_filter_bool, elem_of_remove_dups.
  destruct (String.eqb_spec c "__proto__") as [->|Hne]; cbn [negb].
  - split; intros [_ H]; [discriminate | now contradiction H].
  - tauto.
Qed.

(** totalAnomalies after the loop of analyzeDataset over [cols]: the
    counts of the columns that anomalyCounts owns. *)
Lemma analysis_total (data : list row) (cols : list string) :
  sum_values (snd (fold_left (record_column data) cols (∅, ∅))) =
  sum_list (column_count data <$> counted_columns cols).
Proof.
  rewrite (sum_values_over_keys _ (counted_columns cols)).
  - f_equal. apply list_fmap_ext. intros i c Hc.
    apply list_elem_of_lookup_2, elem_of_counted_columns in Hc.
    rewrite analysis_counts. now rewrite decide_True by exact Hc.
  - apply counted_columns_NoDup.
  - intros k. rewrite elem_of_counted_columns, analysis_counts.
    case_decide; split; intros H'; try tauto; eauto; now destruct H'.
Qed.




(** ** getAnomalyTooltip *)

Lemma string_append_assoc (s1 s2 s3 : string) :
  (s1 ++ s2) ++ s3 = s1 ++ s2 ++ s3.
Proof.
  induction s1 as [|c s1 IH]; [reflexivity|].
  change (String c ((s1 ++ s2) ++ s3) = String c (s1 ++ s2 ++ s3)).
  now f_equal.
Qed.

Lemma calculateStatistics_scenarioA :
  calculateStatistics scenarioA = Some statisticsA.
Proof. reflexivity. Qed.

Section TooltipProperties.

Variable number_to_string : float -> string.

Lemma getAnomalyTooltip_message (anomaly : Anomaly) (stats : Statistics)
    (v : float) :
  isAnomaly anomaly = true ->
  exists before after,
    getAnomalyTooltip number_to_string anomaly stats v =
      before ++ percent_figure number_to_string stats v ++ "% "
        ++ direction_word anomaly ++ " average" ++ after /\
    (severity anomaly = Some extreme ->
     after =
       " (deviation: " ++ deviation_figure number_to_string anomaly stats v
         ++ ")").
Proof.
  intros Ha. unfold getAnomalyTooltip. rewrite Ha. cbn [negb].
  fold (direction_word anomaly). fold (percent_figure number_to_string stats v).
  fold (deviation_figure number_to_string anomaly stats v).
  destruct (severity anomaly) as [[|]|].
  - eexists _, "". split; [reflexivity | discriminate].
  - eexists _, _. split; [reflexivity | reflexivity].
  - eexists _, "". split; [reflexivity | discriminate].
Qed.

(** C8: the tooltip is empty when isAnomaly is false; when it is true the
    message holds the percent-from-mean figure followed by the direction
    word ("above" for type "high", "below" otherwise); the extreme message
    also holds the deviation-from-bound figure; and for the same cell the
    extreme message is never the mild one. *)
Theorem getAnomalyTooltip_contract (anomaly : Anomaly) (stats : Statistics)
    (v : float) :
  (isAnomaly anomaly = false ->
   getAnomalyTooltip number_to_string anomaly stats v = "") /\
  (isAnomaly anomaly = true ->
   contains
     (percent_figure number_to_string stats v ++ "% "
        ++ direction_word anomaly)
     (getAnomalyTooltip number_to_string anomaly stats v) /\
   (severity anomaly = Some extreme ->
    contains
      ("(deviation: " ++ deviation_figure number_to_string anomaly stats v
         ++ ")")
      (getAnomalyTooltip number_to_string anomaly stats v))) /\
  getAnomalyTooltip number_to_string
    {| isAnomaly := true; type := type anomaly; severity := Some extreme |}
    stats v <>
  getAnomalyTooltip number_to_string
    {| isAnomaly := true; type := type anomaly; severity := Some mild |}
    stats v.
Proof.
  split; [|split].
  - intros Ha. unfold getAnomalyTooltip. now rewrite Ha.
  - intros Ha.
    destruct (getAnomalyTooltip_message anomaly stats v Ha)
      as (before & after & Hmsg & Hafter).
    split.
    + exists before, (" average" ++ after). rewrite Hmsg.
      now rewrite !string_append_assoc.
    + intros Hsev. rewrite Hmsg, (Hafter Hsev).
      exists (before ++ percent_figure number_to_string stats v ++ "% "
                ++ direction_word anomaly ++ " average "), "".
      rewrite !string_append_assoc. reflexivity.
  - intros H. apply (f_equal (String.get 0)) in H. vm_compute in H.
    discriminate.
Qed.

End TooltipProperties.

(** The instance of C8 at the anomaly of Scenario A. *)
Lemma getAnomalyTooltip_contract_scenarioA :
  isAnomaly (detectAnomaly (VNumber 100) (Some statisticsA)) = true /\
  contains "242.5% above"
    (getAnomalyTooltip (fun _ => "")
       (detectAnomaly (VNumber 100) (Some statisticsA)) statisticsA 100).
Proof.
  split; [reflexivity|].
  apply (getAnomalyTooltip_contract (fun _ => "")
           (detectAnomaly (VNumber 100) (Some statisticsA)) statisticsA 100).
  reflexivity.
Defined.

(** ** The percentage when the mean is zero *)



Section ZeroMean.

Variable number_to_string : float -> string.


End ZeroMean.


(** ** Order of the input *)

Section Ordered.

Variable universe : list float.
Hypothesis ordered : comparator_orders universe = true.

Lemma ordered_total (a b : float) :
  In a universe -> In b universe ->
  a = b \/ comes_after a b = true \/ comes_after b a = true.
Proof.
  intros Ha Hb. unfold comparator_orders in ordered.
  rewrite forallb_forall in ordered. specialize (ordered a Ha).
  rewrite forallb_forall in ordered. specialize (ordered b Hb).
  apply andb_prop in ordered as [H _].
  apply orb_prop in H as [H|H]; [apply orb_prop in H as [H|H]|]; auto.
  left. now apply Leibniz.eqb_spec.
Qed.

Lemma ordered_trans (a b c : float) :
  In a universe -> In b universe -> In c universe ->
  comes_after a b = true -> comes_after b c = true ->
  comes_after a c = true.
Proof.
  intros Ha Hb Hc Hab Hbc. unfold comparator_orders in ordered.
  rewrite forallb_forall in ordered. specialize (ordered a Ha).
  rewrite forallb_forall in ordered. specialize (ordered b Hb).
  apply andb_prop in ordered as [_ H].
  rewrite forallb_forall in H. specialize (H c Hc).
  now rewrite Hab, Hbc in H.
Qed.

Lemma in_order_trans (a b c : float) :
  In a universe -> In b universe -> In c universe ->
  in_order a b -> in_order b c -> in_order a c.
Proof.
  unfold in_order. fold (comes_after a b) (comes_after b c) (comes_after a c).
  intros Ha Hb Hc Hab Hbc.
  destruct (comes_after a c) eqn:Hac; [|reflexivity].
  destruct (ordered_total a b Ha Hb) as [->|[H|H]]; [congruence..|].
  assert (comes_after b c = true) by now apply (ordered_trans b a c).
  congruence.
Qed.

Lemma in_order_antisym (a b : float) :
  In a universe -> In b universe ->
  in_order a b -> in_order b a -> a = b.
Proof.
  unfold in_order. fold (comes_after a b) (comes_after b a).
  intros Ha Hb Hab Hba.
  destruct (ordered_total a b Ha Hb) as [->|[H|H]]; congruence.
Qed.

Lemma sort_insert_strongly_sorted (x : float) (l : list float) :
  In x universe -> incl l universe ->
  StronglySorted in_order l -> StronglySorted in_order (sort_insert x l).
Proof.
  intros Hx. induction l as [|y l IH]; intros Hl Hs; simpl.
  - repeat constructor.
  - assert (Hy : In y universe) by (apply Hl; now left).
    assert (Hl' : incl l universe) by (intros z Hz; apply Hl; now right).
    inversion Hs as [|? ? Hsl Hall]; subst.
    destruct (0 <? comparator x y)%float eqn:E.
    + constructor; [now apply IH|].
      apply Forall_forall. intros z Hz.
      apply list_elem_of_In, (Permutation_in _ (sort_insert_perm x l)) in Hz.
      destruct Hz as [<-|Hz].
      * now apply comparator_asym.
      * rewrite Forall_forall in Hall. now apply Hall, list_elem_of_In.
    + constructor; [exact Hs|].
      constructor; [exact E|].
      rewrite Forall_forall in Hall |- *. intros z Hz.
      apply (in_order_trans x y z); auto.
      apply Hl'. now apply list_elem_of_In.
Qed.

Lemma js_sort_strongly_sorted (l : list float) :
  incl l universe -> StronglySorted in_order (js_sort l).
Proof.
  induction l as [|x l IH]; intros Hl; simpl; [constructor|].
  apply sort_insert_strongly_sorted.
  - apply Hl. now left.
  - intros z Hz. apply Hl. right.
    now apply (Permutation_in _ (js_sort_perm l)).
  - apply IH. intros z Hz. apply Hl. now right.
Qed.

(** Two sorted arrays with the same elements are the same array. *)
Lemma strongly_sorted_unique (l1 l2 : list float) :
  incl l1 universe ->
  StronglySorted in_order l1 -> StronglySorted in_order l2 ->
  Permutation l1 l2 -> l1 = l2.
Proof.
  revert l2. induction l1 as [|a l1 IH]; intros l2 Hin Hs1 Hs2 Hp.
  - now apply Permutation_nil in Hp.
  - destruct l2 as [|b l2].
    { symmetry in Hp. now apply Permutation_nil in Hp. }
    inversion Hs1 as [|? ? Hs1' Hall1]; subst.
    inversion Hs2 as [|? ? Hs2' Hall2]; subst.
    rewrite Forall_forall in Hall1, Hall2.
    assert (Ha : In a universe) by (apply Hin; now left).
    assert (Hb : In b universe).
    { apply Hin. apply (Permutation_in _ (Permutation_sym Hp)). now left. }
    assert (Hab : a = b).
    { assert (H1 : In a (b :: l2)) by (apply (Permutation_in _ Hp); now left).
      assert (H2 : In b (a :: l1)).
      { apply (Permutation_in _ (Permutation_sym Hp)). now left. }
      destruct H1 as [H1|H1]; [now symmetry|].
      destruct H2 as [H2|H2]; [exact H2|].
      apply in_order_antisym; auto.
      - now apply Hall1, list_elem_of_In.
      - now apply Hall2, list_elem_of_In. }
    subst b. f_equal. apply IH; auto.
    + intros z Hz. apply Hin. now right.
    + now apply Permutation_cons_inv in Hp.
Qed.

Lemma js_sort_permutation (l1 l2 : list float) :
  incl l1 universe -> Permutation l1 l2 -> js_sort l1 = js_sort l2.
Proof.
  intros Hin Hp.
  assert (Hin2 : incl l2 universe).
  { intros z Hz. apply Hin. now apply (Permutation_in _ (Permutation_sym Hp)). }
  apply strongly_sorted_unique.
  - intros z Hz. apply Hin. now apply (Permutation_in _ (js_sort_perm l1)).
  - now apply js_sort_strongly_sorted.
  - now apply js_sort_strongly_sorted.
  - now rewrite !js_sort_perm.
Qed.

End Ordered.

Lemma numericValues_permutation (values values' : list value) :
  Permutation values values' ->
  Permutation (numericValues values) (numericValues values').
Proof.
  induction 1 as [|v l l' _ IH|v w l|l l' l'' _ IH1 _ IH2].
  - reflexivity.
  - rewrite !numericValues_cons. destruct (number_of v); [now constructor|].
    exact IH.
  - rewrite !numericValues_cons.
    destruct (number_of v), (number_of w); try reflexivity. apply perm_swap.
  - now transitivity (numericValues l').
Qed.

(** C7, as the code has it.  calculateStatistics is a function of its
    argument alone: equal inputs give equal results.  For a rearrangement
    of the input the result is null for both or for neither and count is
    the same; and when the comparator puts the numbers of the input in a
    strict total order, every field other than mean is the same.  (mean is
    left out: it is accumulated in input order.) *)
Theorem calculateStatistics_rearranged :
  (forall values again : list value,
     again = values ->
     calculateStatistics again = calculateStatistics values) /\
  (forall values values' : list value,
     Permutation values values' ->
     (calculateStatistics values = None <->
      calculateStatistics values' = None) /\
     (forall st st',
        calculateStatistics values = Some st ->
        calculateStatistics values' = Some st' ->
        count st = count st' /\
        (comparator_orders (numericValues values) = true ->
         q1 st = q1 st' /\ q3 st = q3 st' /\ iqr st = iqr st' /\
         median st = median st' /\ min st = min st' /\ max st = max st' /\
         lowerBound st = lowerBound st' /\ upperBound st = upperBound st' /\
         lowerExtreme st = lowerExtreme st' /\
         upperExtreme st = upperExtreme st'))).
Proof.
  split; [now intros values again ->|].
  intros values values' Hp. apply numericValues_permutation in Hp.
  split.
  - rewrite !calculateStatistics_None. split; intros E; rewrite E in Hp.
    + now apply Permutation_nil in Hp.
    + symmetry in Hp. now apply Permutation_nil in Hp.
  - intros st st' Hst Hst'. split.
    + apply calculateStatistics_count in Hst as [-> _].
      apply calculateStatistics_count in Hst' as [-> _].
      now apply Permutation_length.
    + intros Hord.
      pose proof (js_sort_permutation _ Hord _ _ (incl_refl _) Hp) as Hsort.
      revert Hst Hst'. unfold calculateStatistics.
      destruct (Nat.eqb _ 0); [discriminate|].
      destruct (Nat.eqb _ 0); [discriminate|].
      rewrite <- Hsort. intros [= <-] [= <-]. cbn.
      repeat split; reflexivity.
Qed.

(** An instance of C7: Scenario A and the same numbers in ascending
    order. *)
Lemma calculateStatistics_rearranged_scenarioA :
  Permutation scenarioA
    [VNumber 10; VNumber 11; VNumber 12; VNumber 13; VNumber 100] /\
  comparator_orders (numericValues scenarioA) = true /\
  exists st',
    calculateStatistics
      [VNumber 10; VNumber 11; VNumber 12; VNumber 13; VNumber 100] =
      Some st' /\
    count statisticsA = count st' /\ q1 statisticsA = q1 st'.
Proof.
  assert (Hp : Permutation scenarioA
                 [VNumber 10; VNumber 11; VNumber 12; VNumber 13;
                  VNumber 100]).
  { unfold scenarioA. apply perm_skip. apply perm_swap. }
  split; [exact Hp|]. split; [reflexivity|].
  eexists. split; [reflexivity|].
  destruct (proj2 calculateStatistics_rearranged _ _ Hp) as (_ & H).
  destruct (H statisticsA _ eq_refl eq_refl) as (Hc & Hq).
  split; [exact Hc | exact (proj1 (Hq eq_refl))].
Defined.

(** C7 fails as stated: floating-point addition is not associative and the
    sum runs over the input as given, so two arrangements of
    [1e16, 1, -1e16] have the means 0 and 1/3. *)
Lemma calculateStatistics_mean_depends_on_order :
  Permutation [VNumber 1e16; VNumber 1; VNumber (-1e16)]
              [VNumber 1e16; VNumber (-1e16); VNumber 1] /\
  exists st st',
    calculateStatistics [VNumber 1e16; VNumber 1; VNumber (-1e16)] =
      Some st /\
    calculateStatistics [VNumber 1e16; VNumber (-1e16); VNumber 1] =
      Some st' /\
    mean st = 0%float /\ mean st' = (1 / 3)%float /\
    (mean st =? mean st')%float = false /\
    calculateStatistics [VNumber 1e16; VNumber 1; VNumber (-1e16)] <>
    calculateStatistics [VNumber 1e16; VNumber (-1e16); VNumber 1].
Proof.
  split; [apply perm_skip, perm_swap|].
  eexists _, _. split; [reflexivity|]. split; [reflexivity|].
  split; [reflexivity|]. split; [reflexivity|]. split; [reflexivity|].
  intros H. apply (f_equal (fun o => match o with
                                     | Some s => (mean s =? 0)%float
                                     | None => false
                                     end)) in H.
  vm_compute in H. discriminate.
Qed.

(** * Further properties of the analyzer *)

Lemma count_if_length {A} (f : A -> bool) (l : list A) (a : nat) :
  fold_left (fun count x => if f x then S count else count) l a =
  a + length (List.filter f l).
Proof.
  revert a. induction l as [|x l IH]; intros a; simpl; [lia|].
  rewrite IH. destruct (f x); simpl; lia.
Qed.

Lemma column_count_flagged (data : list row) (col : string) :
  column_count data col =
  length
    (List.filter
       (fun r =>
          isAnomaly
            (detectAnomaly (row_get r col) (column_statistics data col)))
       data).
Proof. unfold column_count. now rewrite count_if_length. Qed.

Lemma detectAnomaly_flags_numbers (v : value) (stats : option Statistics) :
  isAnomaly (detectAnomaly v stats) = true -> is_numeric v = true.
Proof.
  unfold detectAnomaly.
  destruct stats as [st|], v as [| |b|x|s|]; simpl; try discriminate.
  now destruct (is_nan x).
Qed.

Lemma filter_bool_length_le {A} (f g : A -> bool) (l : list A) :
  (forall x, f x = true -> g x = true) ->
  length (List.filter f l) <= length (List.filter g l).
Proof.
  intros Hfg. induction l as [|x l IH]; simpl; [lia|].
  destruct (f x) eqn:Ef.
  - rewrite (Hfg x Ef). simpl. lia.
  - destruct (g x); simpl; lia.
Qed.

Lemma filter_bool_map {A B} (f : B -> bool) (g : A -> B) (l : list A) :
  length (List.filter f (map g l)) =
  length (List.filter (fun x => f (g x)) l).
Proof.
  induction l as [|x l IH]; simpl; [reflexivity|].
  destruct (f (g x)); simpl; now rewrite IH.
Qed.

(** X1: on arrays, for each column of numericColumns, [columnStats[col]]
    reads calculateStatistics of the cells of that column (for the name
    [__proto__] they are the prototype that the assignment put in place),
    and for every name but [__proto__] the entry of anomalyCounts is the
    number of rows whose cell detectAnomaly flags against these
    statistics; neither depends on the other columns, on the position of
    the column or on a repetition of its name. *)
Theorem analyzeDataset_column_results
    (data : list row) (columns : list string) :
  exists r,
    analyzeDataset (AArray data) (AArray columns) = Return r /\
    forall col,
      col ∈ numericColumns r ->
      let stats := calculateStatistics (map (fun r => row_get r col) data) in
      columnStats r !! col = Some stats /\
      (col <> "__proto__" ->
       anomalyCounts r !! col =
         Some (length
                 (List.filter
                    (fun r => isAnomaly (detectAnomaly (row_get r col) stats))
                    data))).
Proof.
  eexists. split; [apply analyzeDataset_arrays|].
  cbn [numericColumns columnStats anomalyCounts totalAnomalies].
  intros col Hcol. cbv zeta.
  rewrite analysis_stats, analysis_counts.
  rewrite decide_True by exact Hcol.
  split; [reflexivity|]. intros Hp.
  rewrite decide_True by (now split). now rewrite column_count_flagged.
Qed.

(** An instance of X1: the column of Scenario A has one flagged row. *)
Lemma analyzeDataset_column_results_scenarioA :
  exists r,
    analyzeDataset (AArray tableA) (AArray ["temp"; "name"]) = Return r /\
    columnStats r !! "temp" = Some (Some statisticsA) /\
    anomalyCounts r !! "temp" = Some 1.
Proof.
  destruct (analyzeDataset_column_results tableA ["temp"; "name"])
    as (r & Hr & Hcol).
  exists r. split; [exact Hr|].
  assert (Hin : "temp" ∈ numericColumns r).
  { assert (Hr' : analyzeDataset (AArray tableA) (AArray ["temp"; "name"]) =
                  Return resultA) by reflexivity.
    rewrite Hr in Hr'. injection Hr' as ->. left. }
  destruct (Hcol "temp" Hin) as [Hstats Hcount].
  split; [exact Hstats|]. apply Hcount. discriminate.
Defined.

Lemma remove_dups_length {A} `{EqDecision A} (l : list A) :
  length (remove_dups l) <= length l.
Proof.
  induction l as [|x l IH]; simpl; [lia|].
  case_decide; simpl; lia.
Qed.

Lemma sum_list_bounded {A} (f : A -> nat) (bound : nat) (l : list A) :
  (forall x, f x <= bound) ->
  sum_list (f <$> l) <= length l * bound.
Proof.
  intros Hf. induction l as [|x l IH]; [simpl; lia|].
  rewrite fmap_cons. cbn [sum_list_with length]. unfold id at 1.
  specialize (Hf x). lia.
Qed.

(** X2: on arrays, every column of numericColumns has statistics whose
    count field (the number of numeric cells) does not exceed the number
    of rows, and for every name but [__proto__] its count of anomalies
    does not exceed that count field; totalAnomalies is at most the number
    of numeric columns times the number of rows. *)
Theorem anomaly_counts_bounded (data : list row) (columns : list string) :
  exists r,
    analyzeDataset (AArray data) (AArray columns) = Return r /\
    (forall col,
       col ∈ numericColumns r ->
       exists st,
         columnStats r !! col = Some (Some st) /\
         count st <= length data /\
         (col <> "__proto__" ->
          exists n, anomalyCounts r !! col = Some n /\ n <= count st)) /\
    totalAnomalies r <= length (numericColumns r) * length data.
Proof.
  eexists. split; [apply analyzeDataset_arrays|].
  cbn [numericColumns columnStats anomalyCounts totalAnomalies].
  assert (Hcount : forall col, column_count data col <= length data).
  { intros col. rewrite column_count_flagged. apply List.filter_length_le. }
  split.
  - intros col Hcol.
    rewrite analysis_stats, analysis_counts, decide_True by exact Hcol.
    pose proof Hcol as Hnum. apply elem_of_filter_bool in Hnum as [_ Hnum].
    destruct (column_statistics_numeric data col Hnum) as (st & Hst & _).
    exists st. rewrite Hst. split; [reflexivity|].
    unfold column_statistics in Hst.
    pose proof (calculateStatistics_count _ _ Hst) as [Hc _].
    rewrite Hc, numericValues_length. unfold projected.
    rewrite filter_bool_map. split; [apply List.filter_length_le|].
    intros Hp. exists (column_count data col).
    rewrite decide_True by (now split). split; [reflexivity|].
    rewrite column_count_flagged.
    apply filter_bool_length_le. intros r.
    apply detectAnomaly_flags_numbers.
  - rewrite analysis_total.
    set (numeric := List.filter (column_is_numeric data) columns).
    transitivity (length (counted_columns numeric) * length data).
    + apply sum_list_bounded, Hcount.
    + apply Nat.mul_le_mono_r. unfold counted_columns.
      etransitivity; [apply List.filter_length_le|].
      apply remove_dups_length.
Qed.

Lemma numericValues_elem (values : list value) (x : float) :
  x ∈ numericValues values -> VNumber x ∈ values /\ is_nan x = false.
Proof.
  unfold numericValues. rewrite list_elem_of_omap.
  intros (v & Hv & Hx). destruct v as [| |b|y|s|]; try discriminate.
  simpl in Hx. destruct (is_nan y) eqn:E; [discriminate|].
  injection Hx as <-. now split.
Qed.

(** The shape of a result of calculateStatistics. *)
Lemma calculateStatistics_Some (values : list value) (st : Statistics) :
  calculateStatistics values = Some st ->
  let sorted := js_sort (numericValues values) in
  let n := length sorted in
  0 < n /\
  q1 st = js_nth sorted (floor_index n 0.25%Q) /\
  q3 st = js_nth sorted (floor_index n 0.75%Q) /\
  median st = js_nth sorted (floor_index n 0.5%Q) /\
  min st = js_nth sorted 0 /\
  max st = js_nth sorted (n - 1) /\
  iqr st = (q3 st - q1 st)%float /\
  lowerBound st = (q1 st - 1.5 * iqr st)%float /\
  upperBound st = (q3 st + 1.5 * iqr st)%float /\
  lowerExtreme st = (q1 st - 3 * iqr st)%float /\
  upperExtreme st = (q3 st + 3 * iqr st)%float.
Proof.
  intros Hst sorted n.
  assert (Hn : 0 < n).
  { pose proof (calculateStatistics_count _ _ Hst) as [Hc Hpos].
    subst n sorted. rewrite js_sort_length. lia. }
  split; [exact Hn|]. revert Hst. unfold calculateStatistics.
  destruct (Nat.eqb _ 0); [discriminate|]. intros [= <-]. cbn.
  repeat split; reflexivity.
Qed.

(** X3: the quartiles, the median, the minimum and the maximum that
    calculateStatistics returns are cells of the input (numbers other than
    NaN that occur in it): no value is interpolated or invented. *)
Theorem statistics_are_input_cells (values : list value) (st : Statistics) :
  calculateStatistics values = Some st ->
  VNumber (q1 st) ∈ values /\ VNumber (median st) ∈ values /\
  VNumber (q3 st) ∈ values /\ VNumber (min st) ∈ values /\
  VNumber (max st) ∈ values /\
  is_nan (q1 st) = false /\ is_nan (median st) = false /\
  is_nan (q3 st) = false /\ is_nan (min st) = false /\
  is_nan (max st) = false.
Proof.
  intros Hst.
  destruct (calculateStatistics_Some values st Hst)
    as (Hn & -> & -> & -> & -> & -> & _).
  set (sorted := js_sort (numericValues values)) in *.
  set (n := length sorted) in *.
  destruct (floor_index_lt n Hn) as (H1 & H2 & H3).
  assert (Hcell : forall i, i < n ->
            VNumber (js_nth sorted i) ∈ values /\
            is_nan (js_nth sorted i) = false).
  { intros i Hi. apply numericValues_elem.
    rewrite <- (js_sort_perm (numericValues values)).
    apply list_elem_of_lookup. exists i. now apply js_nth_lookup. }
  assert (H0 : 0 < n) by exact Hn. assert (Hl : n - 1 < n) by lia.
  destruct (Hcell _ H1), (Hcell _ H2), (Hcell _ H3), (Hcell _ H0),
    (Hcell _ Hl).
  repeat split; assumption.
Qed.

(** An instance of X3. *)
Lemma statistics_are_input_cells_scenarioA :
  calculateStatistics scenarioA = Some statisticsA /\
  VNumber (q1 statisticsA) ∈ scenarioA.
Proof.
  split; [reflexivity|].
  exact (proj1 (statistics_are_input_cells scenarioA statisticsA eq_refl)).
Defined.

(** ** A column of one value *)

Lemma SFltb_irrefl (X : spec_float) : SFltb X X = false.
Proof.
  unfold SFltb, SFcompare.
  destruct X as [s|s| |s m e]; try (now destruct s); try reflexivity.
  destruct s; rewrite Z.compare_refl, Pos.compare_cont_refl; reflexivity.
Qed.

(** With [q1 = q3 = x] the fences at [k] times the range do not exclude
    [x] itself: [x - x] is [+0], or NaN for an infinity. *)
Lemma fences_of_constant (x k : float) (mk : positive) (ek : Z) :
  Prim2SF k = S754_finite false mk ek ->
  (x <? x - k * (x - x))%float = false /\
  (x + k * (x - x) <? x)%float = false.
Proof.
  intros Hk.
  rewrite !ltb_spec, sub_spec, add_spec, !mul_spec, !sub_spec, Hk.
  destruct (Prim2SF x) as [s|s| |s m e] eqn:E.
  - destruct s; split; reflexivity.
  - destruct s; split; reflexivity.
  - split; reflexivity.
  - assert (Hd : SF64sub (S754_finite s m e) (S754_finite s m e) =
                 S754_zero false).
    { unfold SF64sub, SFsub. now rewrite Z.sub_diag. }
    rewrite Hd. cbn [SF64mul SFmul xorb SF64sub SFsub SF64add SFadd].
    split; apply SFltb_irrefl.
Qed.

Lemma numericValues_constant (values : list value) (x : float) :
  (forall v, v ∈ values -> is_numeric v = true -> v = VNumber x) ->
  numericValues values = replicate (length (numericValues values)) x.
Proof.
  induction values as [|v values IH]; intros Hc; [reflexivity|].
  assert (IH' := IH (fun w Hw => Hc w (list_elem_of_further _ _ _ Hw))).
  rewrite numericValues_cons.
  destruct (number_of v) as [y|] eqn:Ey; [|exact IH'].
  assert (Hv : v = VNumber x).
  { apply Hc; [left|]. now rewrite number_of_is_numeric, Ey. }
  subst v. simpl in Ey. destruct (is_nan x); [discriminate|].
  injection Ey as <-. simpl. now rewrite <- IH'.
Qed.

Lemma sort_insert_same (x : float) (n : nat) :
  sort_insert x (replicate n x) = x :: replicate n x.
Proof.
  destruct n as [|n]; [reflexivity|]. simpl.
  destruct (0 <? comparator x x)%float eqn:E; [|reflexivity].
  pose proof (comparator_asym x x E). congruence.
Qed.

Lemma js_sort_replicate (n : nat) (x : float) :
  js_sort (replicate n x) = replicate n x.
Proof.
  induction n as [|n IH]; [reflexivity|].
  simpl. rewrite IH. apply sort_insert_same.
Qed.

Lemma js_nth_replicate (n i : nat) (x : float) :
  i < n -> js_nth (replicate n x) i = x.
Proof.
  intros Hi.
  assert (H : replicate n x !! i = Some (js_nth (replicate n x) i)).
  { apply js_nth_lookup. now rewrite length_replicate. }
  apply lookup_replicate in H as [H _]. exact H.
Qed.

Lemma filter_bool_none_on {A} (f : A -> bool) (l : list A) :
  (forall x, x ∈ l -> f x = false) -> List.filter f l = [].
Proof.
  induction l as [|x l IH]; intros Hf; simpl; [reflexivity|].
  rewrite (Hf x) by left. apply IH. intros y Hy. apply Hf. now right.
Qed.

Lemma constant_values_not_flagged (values : list value) (x : float) :
  (forall v, v ∈ values -> is_numeric v = true -> v = VNumber x) ->
  forall v,
    v ∈ values ->
    isAnomaly (detectAnomaly v (calculateStatistics values)) = false.
Proof.
  intros Hc v Hv.
  destruct (is_numeric v) eqn:Hnum.
  2: { apply not_true_is_false. intros H.
       apply detectAnomaly_flags_numbers in H. congruence. }
  rewrite (Hc v Hv Hnum) in *. simpl in Hnum.
  destruct (calculateStatistics values) as [st|] eqn:Hst; [|reflexivity].
  destruct (calculateStatistics_Some values st Hst)
    as (Hn & Hq1 & Hq3 & _ & _ & _ & Hiqr & Hlb & Hub & Hle & Hue).
  rewrite (numericValues_constant values x Hc), js_sort_replicate,
    length_replicate in Hn, Hq1, Hq3.
  set (n := length (numericValues values)) in *.
  destruct (floor_index_lt n Hn) as (H1 & _ & H3).
  rewrite js_nth_replicate in Hq1, Hq3 by assumption.
  rewrite Hiqr, Hq1, Hq3 in Hlb, Hub, Hle, Hue.
  destruct (fences_of_constant x 3 6755399441055744 (-51) eq_refl)
    as [Hlow3 Hhigh3].
  destruct (fences_of_constant x 1.5 6755399441055744 (-52) eq_refl)
    as [Hlow Hhigh].
  unfold detectAnomaly.
  destruct (is_nan x); [reflexivity|].
  now rewrite Hle, Hlow3, Hue, Hhigh3, Hlb, Hlow, Hub, Hhigh.
Qed.

(** X4: a column whose numeric cells all hold the same number has no
    anomaly: on arrays, when every cell of [col] that is a number other
    than NaN is [x], the count of the column is 0 (the column has no count
    at all when it has no such cell).  The degenerate range, [q3 - q1 = 0],
    is not turned into a flag for the value itself. *)
Theorem constant_column_has_no_anomaly
    (data : list row) (columns : list string) (col : string) (x : float) :
  (forall r, r ∈ data -> is_numeric (row_get r col) = true ->
             row_get r col = VNumber x) ->
  exists result,
    analyzeDataset (AArray data) (AArray columns) = Return result /\
    default 0 (anomalyCounts result !! col) = 0.
Proof.
  intros Hc. eexists. split; [apply analyzeDataset_arrays|].
  cbn [numericColumns columnStats anomalyCounts totalAnomalies].
  rewrite analysis_counts.
  case_decide; [|reflexivity].
  simpl. rewrite column_count_flagged.
  apply length_zero_iff_nil, filter_bool_none_on. intros r Hr.
  apply (constant_values_not_flagged (projected data col) x).
  - intros v Hv. unfold projected in Hv.
    apply list_elem_of_In, in_map_iff in Hv as (r' & <- & Hr').
    apply Hc. now apply list_elem_of_In.
  - unfold projected. apply list_elem_of_In.
    apply (in_map (fun r => row_get r col)). now apply list_elem_of_In.
Qed.

(** An instance of X4: three rows that hold 7. *)
Lemma constant_column_has_no_anomaly_sevens :
  exists result,
    analyzeDataset (AArray (column_table "a" [7; 7; 7]%float))
      (AArray ["a"]) = Return result /\
    default 0 (anomalyCounts result !! "a") = 0.
Proof.
  apply (constant_column_has_no_anomaly _ _ "a" 7%float).
  intros r Hr _.
  apply list_elem_of_In in Hr. simpl in Hr.
  destruct Hr as [<-|[<-|[<-|[]]]]; reflexivity.
Defined.

Lemma single_row_count (r : row) (col : string) : column_count [r] col = 0.
Proof.
  rewrite column_count_flagged.
  apply length_zero_iff_nil, filter_bool_none_on. intros r' Hr'.
  apply list_elem_of_singleton in Hr' as ->.
  apply (constant_values_not_flagged (projected [r] col)
           (match row_get r col with VNumber x => x | _ => 0%float end)).
  - intros v Hv Hnum. apply list_elem_of_singleton in Hv as ->.
    now destruct (row_get r col).
  - now apply list_elem_of_singleton.
Qed.

(** X5: a table of a single row has no anomaly, whatever the row holds:
    totalAnomalies is 0 and every count is 0. *)
Theorem single_row_has_no_anomaly (r : row) (columns : list string) :
  exists result,
    analyzeDataset (AArray [r]) (AArray columns) = Return result /\
    totalAnomalies result = 0 /\
    forall col, default 0 (anomalyCounts result !! col) = 0.
Proof.
  eexists. split; [apply analyzeDataset_arrays|].
  cbn [numericColumns columnStats anomalyCounts totalAnomalies].
  set (numeric := List.filter (column_is_numeric [r]) columns).
  split.
  - rewrite analysis_total.
    pose proof (sum_list_bounded (column_count [r]) 0
                  (counted_columns numeric)) as Hb.
    rewrite Nat.mul_0_r in Hb.
    apply Nat.le_0_r, Hb. intros k. now rewrite single_row_count.
  - intros col. rewrite analysis_counts.
    case_decide; [|reflexivity].
    simpl. apply single_row_count.
Qed.

(** ** The order of the rows *)

Lemma detectAnomaly_fences (v : value) (st st' : Statistics) :
  lowerBound st = lowerBound st' -> upperBound st = upperBound st' ->
  lowerExtreme st = lowerExtreme st' ->
  upperExtreme st = upperExtreme st' ->
  detectAnomaly v (Some st) = detectAnomaly v (Some st').
Proof. unfold detectAnomaly. now intros -> -> -> ->. Qed.

Lemma rearranged_fences (values values' : list value) :
  Permutation values values' ->
  comparator_orders (numericValues values) = true ->
  match calculateStatistics values, calculateStatistics values' with
  | Some st, Some st' =>
      lowerBound st = lowerBound st' /\ upperBound st = upperBound st' /\
      lowerExtreme st = lowerExtreme st' /\
      upperExtreme st = upperExtreme st'
  | None, None => True
  | _, _ => False
  end.
Proof.
  intros Hp Hord. apply numericValues_permutation in Hp.
  pose proof (js_sort_permutation _ Hord _ _ (incl_refl _) Hp) as Hsort.
  destruct (calculateStatistics values) as [st|] eqn:E,
           (calculateStatistics values') as [st'|] eqn:E'.
  - destruct (calculateStatistics_Some _ _ E)
      as (_ & Hq1 & Hq3 & _ & _ & _ & Hi & -> & -> & -> & ->).
    destruct (calculateStatistics_Some _ _ E')
      as (_ & Hq1' & Hq3' & _ & _ & _ & Hi' & -> & -> & -> & ->).
    rewrite <- Hsort in Hq1', Hq3'.
    rewrite Hi, Hi', Hq1, Hq3, Hq1', Hq3'. repeat split; reflexivity.
  - apply calculateStatistics_None in E'. rewrite E' in Hp.
    symmetry in Hp. apply Permutation_nil in Hp.
    apply calculateStatistics_None in Hp. congruence.
  - apply calculateStatistics_None in E. rewrite E in Hp.
    apply Permutation_nil in Hp.
    apply calculateStatistics_None in Hp. congruence.
  - exact I.
Qed.

Lemma existsb_permutation {A} (f : A -> bool) (l l' : list A) :
  Permutation l l' -> existsb f l = existsb f l'.
Proof.
  induction 1 as [|x l l' _ IH|x y l|l l' l'' _ IH1 _ IH2]; simpl.
  - reflexivity.
  - now rewrite IH.
  - destruct (f x), (f y); reflexivity.
  - congruence.
Qed.

Lemma filter_bool_permutation {A} (f : A -> bool) (l l' : list A) :
  Permutation l l' -> Permutation (List.filter f l) (List.filter f l').
Proof.
  induction 1 as [|x l l' _ IH|x y l|l l' l'' _ IH1 _ IH2]; simpl.
  - reflexivity.
  - destruct (f x); [now constructor | exact IH].
  - destruct (f x), (f y); try reflexivity. apply perm_swap.
  - now transitivity (List.filter f l').
Qed.

(** X6: the order of the rows does not matter to the flags.  For two
    arrangements of the same rows, numericColumns is the same, and for a
    column whose numbers the comparator of the sort orders strictly, the
    count of anomalies and the four fences are the same (so a cell is
    flagged in one arrangement exactly when it is in the other). *)
Theorem anomaly_counts_ignore_row_order
    (data data' : list row) (columns : list string) (col : string) :
  Permutation data data' ->
  comparator_orders
    (numericValues (map (fun r => row_get r col) data)) = true ->
  exists result result',
    analyzeDataset (AArray data) (AArray columns) = Return result /\
    analyzeDataset (AArray data') (AArray columns) = Return result' /\
    numericColumns result = numericColumns result' /\
    anomalyCounts result !! col = anomalyCounts result' !! col /\
    forall r,
      detectAnomaly (row_get r col)
        (default None (columnStats result !! col)) =
      detectAnomaly (row_get r col)
        (default None (columnStats result' !! col)).
Proof.
  intros Hp Hord. eexists _, _.
  split; [apply analyzeDataset_arrays|].
  split; [apply analyzeDataset_arrays|].
  cbn [numericColumns columnStats anomalyCounts totalAnomalies].
  assert (Hnum : List.filter (column_is_numeric data) columns =
                 List.filter (column_is_numeric data') columns).
  { apply List.filter_ext. intros c. unfold column_is_numeric, projected.
    apply existsb_permutation. now apply Permutation_map. }
  split; [exact Hnum|].
  assert (Hdetect : forall r,
            detectAnomaly (row_get r col) (column_statistics data col) =
            detectAnomaly (row_get r col) (column_statistics data' col)).
  { intros r. unfold column_statistics, projected.
    pose proof (rearranged_fences _ _
                  (Permutation_map (fun r => row_get r col) Hp) Hord) as H.
    destruct (calculateStatistics (map _ data)) as [st|],
             (calculateStatistics (map _ data')) as [st'|];
      try contradiction; [|reflexivity].
    destruct H as (? & ? & ? & ?). now apply detectAnomaly_fences. }
  rewrite !analysis_stats, !analysis_counts, <- Hnum.
  split.
  - case_decide; [|reflexivity].
    f_equal. rewrite !column_count_flagged.
    rewrite (List.filter_ext _
               (fun r => isAnomaly (detectAnomaly (row_get r col)
                                      (column_statistics data' col)))
               (fun r => f_equal isAnomaly (Hdetect r))).
    apply Permutation_length. now apply filter_bool_permutation.
  - intros r. case_decide; [|reflexivity]. simpl. apply Hdetect.
Qed.

(** An instance of X6: the column of Scenario A and the same rows in
    ascending order. *)
Lemma anomaly_counts_ignore_row_order_scenarioA :
  exists result result',
    analyzeDataset
      (AArray (column_table "temp" [10; 12; 11; 13; 100]%float))
      (AArray ["temp"]) = Return result /\
    analyzeDataset
      (AArray (column_table "temp" [10; 11; 12; 13; 100]%float))
      (AArray ["temp"]) = Return result' /\
    anomalyCounts result !! "temp" = anomalyCounts result' !! "temp".
Proof.
  destruct (anomaly_counts_ignore_row_order
              (column_table "temp" [10; 12; 11; 13; 100]%float)
              (column_table "temp" [10; 11; 12; 13; 100]%float)
              ["temp"] "temp")
    as (result & result' & H1 & H2 & _ & H3 & _).
  - unfold column_table. simpl. apply perm_skip, perm_swap.
  - reflexivity.
  - now exists result, result'.
Defined.

(** ** The order of the statistics *)

Lemma rounded_sign (m : positive) (e : Z) :
  SFltb (binary_round prec emax true m e) (S754_zero false) =
  SFltb (S754_zero false) (binary_round prec emax false m e) /\
  SFltb (binary_round prec emax false m e) (S754_zero false) = false /\
  SFltb (S754_zero false) (binary_round prec emax true m e) = false.
Proof.
  unfold binary_round.
  destruct (shl_align _ _ _) as [mz ez].
  unfold binary_round_aux.
  destruct (shr_fexp _ _ _ _ _) as [mrs' e'].
  destruct (shr_fexp _ _ _ _ _) as [mrs'' e''].
  destruct (shr_m mrs''); [repeat split| |repeat split].
  destruct (Z.leb _ _); repeat split.
Qed.

(** [x - y < 0] exactly when [y - x > 0], for all doubles. *)
Lemma float_sub_sign (x y : float) :
  (x - y <? 0)%float = (0 <? y - x)%float.
Proof.
  rewrite !ltb_spec, !sub_spec.
  change (Prim2SF 0) with (S754_zero false).
  destruct (Prim2SF x) as [sx|sx| |sx mx ex],
           (Prim2SF y) as [sy|sy| |sy my ey];
    try (unfold SF64sub, SFsub, SFltb, SFcompare;
         repeat match goal with b : bool |- _ => destruct b end;
         reflexivity).
  unfold SF64sub, SFsub. rewrite (Z.min_comm ey ex).
  set (a := cond_Zopp sx _). set (b := cond_Zopp sy _).
  replace (b - a)%Z with (- (a - b))%Z by lia.
  destruct (a - b)%Z as [|d|d]; cbv [Z.opp]; unfold binary_normalize.
  - reflexivity.
  - destruct (rounded_sign d (Z.min ex ey)) as (_ & -> & ->). reflexivity.
  - now destruct (rounded_sign d (Z.min ex ey)) as (-> & _).
Qed.

Lemma in_order_refl (x : float) : in_order x x.
Proof.
  unfold in_order. destruct (0 <? comparator x x)%float eqn:E;
    [|reflexivity].
  pose proof (comparator_asym x x E). congruence.
Qed.

Lemma strongly_sorted_lookup {A} (R : A -> A -> Prop) (l : list A) :
  StronglySorted R l ->
  forall i j a b,
    i < j -> l !! i = Some a -> l !! j = Some b -> R a b.
Proof.
  induction 1 as [|x l Hs IH Hall]; intros i j a b Hij Ha Hb.
  - now rewrite lookup_nil in Ha.
  - destruct j as [|j]; [lia|]. simpl in Hb.
    destruct i as [|i]; simpl in Ha.
    + injection Ha as <-. rewrite Forall_forall in Hall.
      apply Hall. now apply list_elem_of_lookup_2 in Hb.
    + apply (IH i j); [lia | assumption..].
Qed.

(** X18: when the comparator of the sort orders the numbers of the input
    strictly, the statistics come in order: by the comparator, min is not
    after q1, q1 not after median, median not after q3, q3 not after max;
    and iqr is not negative. *)
Theorem statistics_in_order (values : list value) (st : Statistics) :
  calculateStatistics values = Some st ->
  comparator_orders (numericValues values) = true ->
  in_order (min st) (q1 st) /\ in_order (q1 st) (median st) /\
  in_order (median st) (q3 st) /\ in_order (q3 st) (max st) /\
  (iqr st <? 0)%float = false.
Proof.
  intros Hst Hord.
  destruct (calculateStatistics_Some values st Hst)
    as (Hn & Hq1 & Hq3 & Hmed & Hmin & Hmax & Hiqr & _).
  set (sorted := js_sort (numericValues values)) in *.
  set (n := length sorted) in *.
  pose proof (js_sort_strongly_sorted _ Hord _ (incl_refl _)) as Hs.
  fold sorted in Hs.
  assert (Hle : forall i j, i <= j -> j < n ->
            in_order (js_nth sorted i) (js_nth sorted j)).
  { intros i j Hij Hj. destruct (Nat.eq_dec i j) as [->|Hne].
    - apply in_order_refl.
    - apply (strongly_sorted_lookup _ _ Hs i j); [lia|..];
        apply js_nth_lookup; fold n; lia. }
  destruct (floor_index_lt n Hn) as (H1 & H2 & H3).
  assert (H12 : floor_index n 0.25%Q <= floor_index n 0.5%Q).
  { rewrite floor_index_quarter, floor_index_half.
    pose proof (Nat.div_mod_eq n 4). pose proof (Nat.div_mod_eq n 2).
    pose proof (Nat.mod_upper_bound n 4). pose proof (Nat.mod_upper_bound n 2).
    lia. }
  assert (H23 : floor_index n 0.5%Q <= floor_index n 0.75%Q).
  { rewrite floor_index_half, floor_index_three_quarters.
    pose proof (Nat.div_mod_eq (3 * n) 4). pose proof (Nat.div_mod_eq n 2).
    pose proof (Nat.mod_upper_bound (3 * n) 4).
    pose proof (Nat.mod_upper_bound n 2).
    lia. }
  assert (Hq : in_order (q1 st) (q3 st)).
  { rewrite Hq1, Hq3. apply Hle; lia. }
  rewrite Hmin, Hq1, Hmed, Hq3, Hmax.
  repeat split; try (apply Hle; lia).
  rewrite Hiqr, float_sub_sign. exact Hq.
Qed.

(** An instance of X18 at Scenario A. *)
Lemma statistics_in_order_scenarioA :
  in_order (q1 statisticsA) (q3 statisticsA) /\
  (iqr statisticsA <? 0)%float = false.
Proof.
  destruct (statistics_in_order scenarioA statisticsA eq_refl eq_refl)
    as (_ & H1 & H2 & _ & H3).
  split; [|exact H3]. reflexivity.
Defined.

(** * Properties of the table component *)

(** ** Highlighted cells *)

Section Cells.

Variable number_to_string : float -> string.

Lemma getAnomalyTooltip_not_empty (a : Anomaly) (stats : Statistics)
    (x : float) :
  isAnomaly a = true ->
  getAnomalyTooltip number_to_string a stats x <> "".
Proof.
  intros Ha H. unfold getAnomalyTooltip in H. rewrite Ha in H.
  cbn [negb] in H.
  destruct (severity a) as [[|]|];
    apply (f_equal String.length) in H; vm_compute in H; discriminate.
Qed.

(** What decides that a cell is highlighted. *)
Lemma is_highlighted_spec (showAnomalies : bool) (analysis : AnalysisResult)
    (r : row) (col : string) :
  is_highlighted
    (getCellAnomalyInfo number_to_string showAnomalies (Some analysis) r col) =
  showAnomalies &&
  isAnomaly
    (detectAnomaly (row_get r col)
       (default None (columnStats analysis !! col))).
Proof.
  unfold getCellAnomalyInfo. destruct showAnomalies; [|reflexivity].
  cbn [andb].
  destruct (columnStats analysis !! col) as [[st|]|];
    cbn [default from_option id];
    try (now destruct (row_get r col)).
  cbv zeta.
  destruct (isAnomaly (detectAnomaly (row_get r col) (Some st))) eqn:E;
    cbn [negb]; [|reflexivity].
  apply detectAnomaly_flags_numbers in E.
  now destruct (row_get r col).
Qed.

(** X7: a highlighted cell is a number other than NaN in a column that has
    statistics, flagged by detectAnomaly against them, while the toggle is
    on and an analysis exists; it carries the outcome of detectAnomaly, a
    tooltip that is not empty and a CSS class that is not empty.  (Text,
    null and missing cells are never highlighted.) *)
Theorem highlighted_cell_is_flagged_number (showAnomalies : bool)
    (anomalyAnalysis : option AnalysisResult) (r : row) (col : string)
    (info : CellAnomalyInfo) :
  getCellAnomalyInfo number_to_string showAnomalies anomalyAnalysis r col =
    Some info ->
  showAnomalies = true /\
  exists analysis stats x,
    anomalyAnalysis = Some analysis /\
    columnStats analysis !! col = Some (Some stats) /\
    row_get r col = VNumber x /\ is_nan x = false /\
    anomaly info = detectAnomaly (VNumber x) (Some stats) /\
    isAnomaly (anomaly info) = true /\
    tooltip info =
      getAnomalyTooltip number_to_string (anomaly info) stats x /\
    tooltip info <> "" /\
    getCellClass (Some info) <> "".
Proof.
  unfold getCellAnomalyInfo.
  destruct showAnomalies; [|discriminate].
  destruct anomalyAnalysis as [analysis|]; [|discriminate].
  destruct (columnStats analysis !! col) as [[stats|]|] eqn:Hstats;
    try discriminate.
  cbv zeta.
  destruct (isAnomaly (detectAnomaly (row_get r col) (Some stats))) eqn:Ha;
    [|discriminate].
  cbn [negb].
  destruct (row_get r col) as [| |b|x|s|] eqn:Hv; try discriminate.
  intros [= <-]. split; [reflexivity|].
  exists analysis, stats, x. cbn [anomaly tooltip].
  pose proof (detectAnomaly_flags_numbers _ _ Ha) as Hnum. simpl in Hnum.
  repeat split; try reflexivity; try assumption.
  - now destruct (is_nan x).
  - now apply getAnomalyTooltip_not_empty.
  - unfold getCellClass. cbn [anomaly].
    destruct (severity _) as [[|]|], (type _) as [[|]|]; discriminate.
Qed.

(** X8: on arrays, with the toggle on, the number of highlighted cells of
    a column with any name but [__proto__] is the count that
    analyzeDataset reports for it (0 for a column without count): the
    badge in the header and the cells agree.  (The count of a column named
    [__proto__] is not stored, while its cells are highlighted.) *)
Theorem highlighted_cells_match_count
    (data : list row) (columns : list string) (col : string) :
  col <> "__proto__" ->
  exists result,
    analyzeDataset (AArray data) (AArray columns) = Return result /\
    length
      (List.filter
         (fun r =>
            is_highlighted
              (getCellAnomalyInfo number_to_string true (Some result)
                 r col))
         data) =
    default 0 (anomalyCounts result !! col).
Proof.
  intros Hp. eexists. split; [apply analyzeDataset_arrays|].
  erewrite List.filter_ext by (intros r; apply is_highlighted_spec).
  cbn [numericColumns columnStats anomalyCounts totalAnomalies andb].
  rewrite analysis_stats, analysis_counts.
  destruct (decide (col ∈ List.filter (column_is_numeric data) columns))
    as [Hin|Hnin].
  - rewrite decide_True by (now split).
    simpl. now rewrite column_count_flagged.
  - rewrite decide_False by tauto. simpl.
    apply length_zero_iff_nil, filter_bool_none.
    intros r. now destruct (row_get r col).
Qed.

End Cells.

(** An instance of X8: one cell of the column of Scenario A is
    highlighted, and the count of the column is 1. *)
Lemma highlighted_cells_match_count_scenarioA :
  "temp" <> "__proto__" /\
  exists result,
    analyzeDataset (AArray tableA) (AArray ["temp"; "name"]) =
      Return result /\
    length
      (List.filter
         (fun r =>
            is_highlighted
              (getCellAnomalyInfo (fun _ => "") true (Some result) r "temp"))
         tableA) =
    default 0 (anomalyCounts result !! "temp").
Proof.
  assert (Hp : "temp" <> "__proto__") by discriminate.
  split; [exact Hp|].
  exact (highlighted_cells_match_count (fun _ => "") tableA
           ["temp"; "name"] "temp" Hp).
Defined.

(** An instance of X7: the cell 100 of Scenario A. *)
Lemma highlighted_cell_is_flagged_number_scenarioA :
  exists info,
    getCellAnomalyInfo (fun _ => "") true (Some resultA)
      {[ "temp" := VNumber 100 ]} "temp" = Some info /\
    tooltip info <> "".
Proof.
  assert (Hinfo :
    getCellAnomalyInfo (fun _ => "") true (Some resultA)
      {[ "temp" := VNumber 100 ]} "temp" =
    Some {| anomaly := detectAnomaly (VNumber 100) (Some statisticsA);
            tooltip :=
              getAnomalyTooltip (fun _ => "")
                (detectAnomaly (VNumber 100) (Some statisticsA))
                statisticsA 100 |}) by reflexivity.
  eexists. split; [exact Hinfo|].
  destruct (highlighted_cell_is_flagged_number (fun _ => "") true
              (Some resultA) {[ "temp" := VNumber 100 ]} "temp" _ Hinfo)
    as (_ & analysis & stats & x & _ & _ & _ & _ & _ & _ & _ & H & _).
  exact H.
Defined.

(** X9: getCellClass answers the empty class exactly for a cell without
    anomaly info, and for the outcomes that detectAnomaly flags the class
    tells the outcome: two flagged outcomes with the same class have the
    same type and the same severity. *)
Theorem cell_class_identifies_outcome :
  (forall info, getCellClass info = "" <-> info = None) /\
  (forall v v' stats stats' text text',
     isAnomaly (detectAnomaly v stats) = true ->
     isAnomaly (detectAnomaly v' stats') = true ->
     getCellClass
       (Some {| anomaly := detectAnomaly v stats; tooltip := text |}) =
     getCellClass
       (Some {| anomaly := detectAnomaly v' stats'; tooltip := text' |}) ->
     detectAnomaly v stats = detectAnomaly v' stats').
Proof.
  split.
  - intros [info|]; [|easy]. unfold getCellClass.
    destruct (severity _) as [[|]|], (type _) as [[|]|];
      split; discriminate.
  - intros v v' stats stats' text text'.
    assert (Hfour : forall w st,
              isAnomaly (detectAnomaly w st) = true ->
              exists t s, detectAnomaly w st =
                {| isAnomaly := true; type := Some t; severity := Some s |}).
    { intros w st. unfold detectAnomaly.
      destruct st as [st|], w as [| |b|x|s|]; simpl; try discriminate.
      destruct (is_nan x); [discriminate|].
      repeat match goal with
             | |- context [if ?c then _ else _] => destruct c
             end; simpl; try discriminate; eauto. }
    intros Ha Ha'.
    destruct (Hfour _ _ Ha) as (t & s & ->).
    destruct (Hfour _ _ Ha') as (t' & s' & ->).
    unfold getCellClass. cbn [anomaly type severity].
    destruct t, s, t', s'; intros H; try reflexivity; discriminate.
Qed.

(** An instance of X9. *)
Lemma cell_class_identifies_outcome_scenarioA :
  detectAnomaly (VNumber 100) (Some statisticsA) =
  detectAnomaly (VNumber 200) (Some statisticsA).
Proof.
  apply (proj2 cell_class_identifies_outcome _ _ _ _ "" "");
    reflexivity.
Defined.

Lemma sum_list_positive (l : list nat) :
  0 < sum_list l <-> exists x, x ∈ l /\ 0 < x.
Proof.
  induction l as [|y l IH]; cbn [sum_list_with].
  - split; [lia | intros (x & Hx & _); now apply elem_of_nil in Hx].
  - unfold id at 1. split.
    + intros H. destruct y as [|y].
      * destruct (proj1 IH) as (x & Hx & Hpos); [simpl in H; lia|].
        exists x. split; [now right | exact Hpos].
      * exists (S y). split; [left | lia].
    + intros (x & Hx & Hpos). apply elem_of_cons in Hx as [->|Hx]; [lia|].
      assert (0 < sum_list l) by (apply IH; eauto). lia.
Qed.

Lemma filter_bool_positive {A} (f : A -> bool) (l : list A) :
  0 < length (List.filter f l) <-> exists x, x ∈ l /\ f x = true.
Proof.
  split.
  - intros H. destruct (List.filter f l) as [|x l'] eqn:E; [simpl in H; lia|].
    assert (Hx : x ∈ List.filter f l) by (rewrite E; left).
    apply elem_of_filter_bool in Hx. eauto.
  - intros (x & Hx & Hf).
    assert (H : x ∈ List.filter f l) by now apply elem_of_filter_bool.
    destruct (List.filter f l); [now apply elem_of_nil in H | simpl; lia].
Qed.

Section Controls.

Variable number_to_string : float -> string.

(** X10: for arrays of which no column is named [__proto__], the controls
    above the table (toggle, badge, legend) are rendered exactly when,
    with the toggle on, at least one cell of the table is highlighted.  In
    particular they are absent for an empty table, where the guard answers
    null. *)
Theorem anomaly_controls_iff_highlight
    (data : list row) (columns : list string) :
  "__proto__" ∉ columns ->
  exists analysis,
    anomalyAnalysis (AArray data) (AArray columns) = Return analysis /\
    (showsAnomalyControls analysis = true <->
     exists r col,
       r ∈ data /\ col ∈ columns /\
       is_highlighted
         (getCellAnomalyInfo number_to_string true analysis r col) = true).
Proof.
  intros Hproto.
  destruct data as [|r0 data].
  { exists None. split; [reflexivity|]. split; [discriminate|].
    intros (r & _ & Hr & _). now apply elem_of_nil in Hr. }
  set (rows := r0 :: data).
  unfold anomalyAnalysis. cbn [falsy length_is_zero length Nat.eqb orb].
  rewrite analyzeDataset_arrays. cbv zeta.
  eexists. split; [reflexivity|]. cbn [showsAnomalyControls totalAnomalies].
  rewrite analysis_total.
  set (numeric := List.filter (column_is_numeric rows) columns).
  rewrite Nat.ltb_lt, sum_list_positive.
  assert (Hflag : forall r col,
            is_highlighted
              (getCellAnomalyInfo number_to_string true
                 (Some {| columnStats :=
                            fst (fold_left (record_column rows) numeric (∅, ∅));
                          anomalyCounts :=
                            snd (fold_left (record_column rows) numeric (∅, ∅));
                          numericColumns := numeric;
                          totalAnomalies :=
                            sum_values
                              (snd (fold_left (record_column rows) numeric
                                      (∅, ∅))) |})
                 r col) = true <->
            col ∈ numeric /\
            isAnomaly
              (detectAnomaly (row_get r col) (column_statistics rows col)) =
            true).
  { intros r col. rewrite is_highlighted_spec. cbn [columnStats andb].
    subst numeric. rewrite analysis_stats.
    case_decide; cbn [default from_option id].
    - tauto.
    - split; [|tauto]. now destruct (row_get r col). }
  assert (Hcounted : forall col, col ∈ counted_columns numeric <->
                                 col ∈ numeric).
  { intros col. rewrite elem_of_counted_columns. split; [tauto|].
    intros Hcol. split; [exact Hcol|]. intros ->.
    apply elem_of_filter_bool in Hcol as [Hcol _]. contradiction. }
  split.
  - intros (n & Hn & Hpos).
    apply list_elem_of_fmap in Hn as (col & -> & Hcol).
    apply Hcounted in Hcol.
    rewrite column_count_flagged in Hpos.
    apply filter_bool_positive in Hpos as (r & Hr & Hflagged).
    exists r, col. split; [exact Hr|]. split.
    + now apply elem_of_filter_bool in Hcol as [Hcol _].
    + apply Hflag. now split.
  - intros (r & col & Hr & _ & Hh). apply Hflag in Hh as [Hcol Hflagged].
    exists (column_count rows col). split.
    + apply list_elem_of_fmap. exists col. split; [reflexivity|].
      now apply Hcounted.
    + rewrite column_count_flagged. apply filter_bool_positive. eauto.
Qed.

End Controls.

(** An instance of X10: the table of Scenario A. *)
Lemma anomaly_controls_iff_highlight_scenarioA :
  ("__proto__" ∉ ["temp"; "name"]) /\
  exists analysis,
    anomalyAnalysis (AArray tableA) (AArray ["temp"; "name"]) =
      Return analysis /\
    (showsAnomalyControls analysis = true <->
     exists r col,
       r ∈ tableA /\ col ∈ ["temp"; "name"] /\
       is_highlighted
         (getCellAnomalyInfo (fun _ => "") true analysis r col) = true).
Proof.
  assert (Hp : "__proto__" ∉ ["temp"; "name"]).
  { intros H. apply elem_of_cons in H as [H|H]; [discriminate|].
    apply elem_of_cons in H as [H|H]; [discriminate|].
    now apply elem_of_nil in H. }
  split; [exact Hp|].
  exact (anomaly_controls_iff_highlight (fun _ => "") tableA
           ["temp"; "name"] Hp).
Defined.

(** ** Pagination *)

Lemma totalPages_ceiling (rows : list row) :
  totalPages rows = ((Z.of_nat (length rows) + 9) / 10)%Z.
Proof.
  unfold totalPages, rowsPerPage, Qceiling, Qfloor, Qopp, Qdiv, Qmult, Qinv,
    inject_Z; cbn [Qnum Qden].
  set (n := Z.of_nat (length rows)).
  change (Z.pos (1 * 1)) with 1%Z. change (Z.pos (1 * 10)) with 10%Z.
  rewrite Z.mul_1_r.
  pose proof (Z.div_mod (- n) 10 ltac:(lia)).
  pose proof (Z.mod_pos_bound (- n) 10 ltac:(lia)).
  pose proof (Z.div_mod (n + 9) 10 ltac:(lia)).
  pose proof (Z.mod_pos_bound (n + 9) 10 ltac:(lia)).
  lia.
Qed.

Lemma totalPages_bounds (rows : list row) :
  (10 * (totalPages rows - 1) < Z.of_nat (length rows)
   <= 10 * totalPages rows)%Z \/
  (length rows = 0 /\ totalPages rows = 0%Z).
Proof.
  rewrite totalPages_ceiling.
  pose proof (Z.div_mod (Z.of_nat (length rows) + 9) 10 ltac:(lia)).
  pose proof (Z.mod_pos_bound (Z.of_nat (length rows) + 9) 10 ltac:(lia)).
  lia.
Qed.

(** A page from 1 on is the ten rows after those of the pages before. *)
Lemma paginatedData_chunk (rows : list row) (p : Z) :
  (1 <= p)%Z ->
  paginatedData rows p =
  take 10 (drop (10 * Z.to_nat (p - 1)) rows).
Proof.
  intros Hp. unfold paginatedData, slice, rowsPerPage.
  set (len := Z.of_nat (length rows)).
  destruct (Z.ltb_spec ((p - 1) * 10) 0) as [H|_]; [lia|].
  destruct (Z.ltb_spec (p * 10) 0) as [H|_]; [lia|].
  destruct (Z.le_gt_cases len ((p - 1) * 10)) as [Hbig|Hsmall].
  - rewrite !drop_ge by (subst len; lia). now rewrite !take_nil.
  - replace (Z.to_nat (Z.min ((p - 1) * 10) len))
      with (10 * Z.to_nat (p - 1)) by lia.
    destruct (Z.le_gt_cases (p * 10) len) as [Hfull|Hlast].
    + f_equal. lia.
    + rewrite !take_ge; [reflexivity|rewrite length_drop..];
        subst len; lia.
Qed.

Lemma chunks_concat {A} (l : list A) (k : nat) :
  concat (map (fun i => take 10 (drop (10 * i) l)) (seq 0 k)) =
  take (10 * k) l.
Proof.
  induction k as [|k IH]; [now rewrite take_0|].
  rewrite seq_S, map_app, concat_app, IH.
  cbn [map concat Nat.add]. rewrite app_nil_r.
  replace (10 * S k) with (10 * k + 10) by lia.
  apply take_take_drop.
Qed.

Lemma all_pages_concat (rows : list row) : concat (all_pages rows) = rows.
Proof.
  unfold all_pages. set (k := Z.to_nat (totalPages rows)).
  transitivity (take (10 * k) rows).
  - rewrite <- chunks_concat. f_equal.
    rewrite <- (fmap_S_seq 0 k).
    change (S <$> seq 0 k) with (map S (seq 0 k)).
    rewrite map_map. apply map_ext. intros i.
    rewrite paginatedData_chunk by lia. do 2 f_equal. lia.
  - apply take_ge. subst k.
    pose proof (totalPages_bounds rows). lia.
Qed.

Lemma page_length (rows : list row) (p : Z) :
  (1 <= p)%Z ->
  length (paginatedData rows p) =
  Nat.min 10 (length rows - 10 * Z.to_nat (p - 1)).
Proof.
  intros Hp. rewrite paginatedData_chunk by exact Hp.
  now rewrite length_take, length_drop.
Qed.

(** X12: for a page [p] from 1 on: it holds at most 10 rows; exactly 10
    when it is not the last page; at least one row when it is one of the
    pages up to totalPages; and none when [p] is beyond totalPages. *)
Theorem page_sizes (rows : list row) (p : Z) :
  (1 <= p)%Z ->
  length (paginatedData rows p) <= 10 /\
  ((p < totalPages rows)%Z -> length (paginatedData rows p) = 10) /\
  ((p <= totalPages rows)%Z -> 1 <= length (paginatedData rows p)) /\
  ((totalPages rows < p)%Z -> paginatedData rows p = []).
Proof.
  intros Hp. pose proof (page_length rows p Hp) as Hlen.
  pose proof (totalPages_bounds rows) as Htotal.
  repeat split; try lia.
  intros Hbeyond. apply length_zero_iff_nil. lia.
Qed.

(** An instance of X12: the first page of a table of two rows. *)
Lemma page_sizes_two_rows :
  length (paginatedData [∅; ∅] 1) <= 10.
Proof. apply (page_sizes [∅; ∅] 1). lia. Defined.

Lemma page_step_in_range (total p : Z) :
  (1 <= p <= total)%Z ->
  (1 <= previousPage p <= total)%Z /\ (1 <= nextPage total p <= total)%Z.
Proof. unfold previousPage, nextPage. lia. Qed.

Lemma page_fold_in_range (total : Z) (clicks : list PageButton) (q : Z) :
  (1 <= q <= total)%Z ->
  (1 <= fold_left
          (fun p button =>
             match button with
             | Previous => previousPage p
             | Next => nextPage total p
             end)
          clicks q <= total)%Z.
Proof.
  revert q. induction clicks as [|button clicks IH]; intros q Hq;
    [exact Hq|].
  simpl. apply IH. destruct button; now apply page_step_in_range.
Qed.

(** X13: when the table has at least one page, whatever series of clicks
    on Previous and Next is made from the initial page 1, currentPage
    stays between 1 and totalPages and the page shown is not empty. *)
Theorem navigation_stays_on_a_page
    (rows : list row) (clicks : list PageButton) :
  (1 <= totalPages rows)%Z ->
  let p := page_after (totalPages rows) clicks in
  (1 <= p <= totalPages rows)%Z /\ paginatedData rows p <> [].
Proof.
  intros Htotal p.
  assert (Hrange : (1 <= p <= totalPages rows)%Z).
  { subst p. unfold page_after. apply page_fold_in_range. lia. }
  split; [exact Hrange|]. clearbody p. intros Hempty.
  pose proof (page_length rows p ltac:(lia)) as Hlen.
  pose proof (totalPages_bounds rows) as Hbounds.
  rewrite Hempty in Hlen. cbn [length] in Hlen. lia.
Qed.

(** An instance of X13: 25 rows, Next twice, Previous once. *)
Lemma navigation_stays_on_a_page_25 :
  paginatedData (replicate 25 ∅) (page_after 3 [Next; Next; Previous]) <> [].
Proof.
  apply (navigation_stays_on_a_page (replicate 25 ∅) [Next; Next; Previous]).
  vm_compute. discriminate.
Defined.

(** X11: the pages 1 to totalPages, one after the other, are the rows of
    the table, every row once and in order, and each of these pages holds
    between 1 and 10 rows. *)
Theorem pages_cover_the_rows (rows : list row) :
  concat (all_pages rows) = rows /\
  Z.of_nat (length (all_pages rows)) = totalPages rows /\
  Forall (fun page => 1 <= length page <= 10) (all_pages rows).
Proof.
  split; [apply all_pages_concat|]. unfold all_pages.
  pose proof (totalPages_bounds rows) as Hbounds.
  split.
  - rewrite length_map, length_seq. lia.
  - apply Forall_forall. intros page Hpage.
    apply list_elem_of_In, in_map_iff in Hpage as (i & <- & Hi).
    apply in_seq in Hi.
    rewrite page_length by lia. lia.
Qed.

(** ** Sorting *)

Lemma insert_by_perm {A} (compare : A -> A -> Z) (x : A) (l : list A) :
  Permutation (insert_by compare x l) (x :: l).
Proof.
  induction l as [|y l IH]; simpl; [reflexivity|].
  destruct (0 <? compare x y)%Z.
  - rewrite IH. apply perm_swap.
  - reflexivity.
Qed.

Lemma sort_by_perm {A} (compare : A -> A -> Z) (l : list A) :
  Permutation (sort_by compare l) l.
Proof.
  induction l as [|x l IH]; simpl; [reflexivity|].
  rewrite insert_by_perm. now constructor.
Qed.

(** Where the comparator never asks for both orders of two elements, no
    element of the sorted array is followed by one that it should come
    after. *)
Lemma sort_by_sorted {A} (compare : A -> A -> Z) (P : A -> Prop)
    (l : list A) :
  (forall a b, P a -> P b ->
     (0 <? compare a b)%Z = true -> (0 <? compare b a)%Z = false) ->
  Forall P l ->
  Sorted (fun a b => (0 <? compare a b)%Z = false) (sort_by compare l).
Proof.
  intros Hasym. induction l as [|x l IH]; intros HP; simpl; [constructor|].
  apply Forall_cons in HP as [Hx HP]. specialize (IH HP).
  assert (HPs : Forall P (sort_by compare l)).
  { now rewrite sort_by_perm. }
  revert IH HPs. generalize (sort_by compare l) as s.
  induction s as [|y s IHs]; intros Hs HPs; simpl.
  - repeat constructor.
  - apply Forall_cons in HPs as [Hy HPs].
    destruct (0 <? compare x y)%Z eqn:E.
    + inversion Hs as [|? ? Hs' Hhd]; subst.
      constructor; [now apply IHs|].
      destruct s as [|z s]; simpl.
      * constructor. now apply Hasym.
      * destruct (0 <? compare x z)%Z.
        -- inversion Hhd; subst. now constructor.
        -- constructor. now apply Hasym.
    + constructor; [exact Hs|]. now constructor.
Qed.

Lemma float_ltb_asym (x y : float) :
  (x <? y)%float = true -> (y <? x)%float = false.
Proof.
  rewrite !ltb_spec. unfold SFltb, SFcompare.
  destruct (Prim2SF x) as [s|s| |s m e], (Prim2SF y) as [s'|s'| |s' m' e'];
    try (destruct s; try destruct s'; simpl; congruence);
    try (destruct s'; simpl; congruence); try (simpl; congruence).
  rewrite (Z.compare_antisym e e').
  change (Pos.compare_cont Eq m' m)
    with (Pos.compare_cont (CompOpp Eq) m' m).
  rewrite <- (Pos.compare_cont_antisym m m' Eq).
  destruct s, s'; try (simpl; congruence);
    destruct (e ?= e')%Z; simpl; try congruence;
    destruct (Pos.compare_cont Eq m m'); simpl; congruence.
Qed.

Section Sorting.

Variable less_than_other : value -> value -> bool.

(** X14: sorting never loses, repeats or changes a row, and so leaves the
    number of pages as it is: sortedData is a rearrangement of the data,
    whatever the cells hold.  Without a sort key, and for the key that is
    the empty name, it is the data as given. *)
Theorem sortedData_rearranges (sortConfig : SortConfig) (data : list row) :
  Permutation (sortedData less_than_other sortConfig data) data /\
  totalPages (sortedData less_than_other sortConfig data) =
    totalPages data /\
  (key sortConfig = None \/ key sortConfig = Some "" ->
   sortedData less_than_other sortConfig data = data).
Proof.
  assert (Hp : Permutation (sortedData less_than_other sortConfig data) data).
  { unfold sortedData. destruct (key sortConfig) as [k|]; [|reflexivity].
    destruct (String.eqb k ""); [reflexivity | apply sort_by_perm]. }
  split; [exact Hp|]. split.
  - unfold totalPages. now rewrite (Permutation_length Hp).
  - unfold sortedData. now intros [->| ->].
Qed.

(** X15: when every row holds a number other than NaN under the sort key,
    the rows of sortedData are in the order of the direction: ascending,
    no row is followed by one with a smaller number; descending, none is
    followed by one with a greater number. *)
Theorem sortedData_orders_numbers
    (k : string) (d : Direction) (data : list row) :
  k <> "" ->
  Forall (has_number k) data ->
  Sorted (key_in_order k d)
    (sortedData less_than_other {| key := Some k; direction := d |} data).
Proof.
  intros Hk Hnum. unfold sortedData. cbn [key direction].
  destruct (String.eqb_spec k "") as [->|_]; [congruence|].
  assert (Hgt : forall a b, has_number k a -> has_number k b ->
            exists x y,
              row_get a k = VNumber x /\ row_get b k = VNumber y /\
              (0 <? compareRows less_than_other k d a b)%Z =
              match d with
              | asc => negb (x <? y)%float && (y <? x)%float
              | desc => (x <? y)%float
              end).
  { intros a b (x & Hx & _) (y & Hy & _). exists x, y.
    split; [exact Hx|]. split; [exact Hy|].
    unfold compareRows, less_than. rewrite Hx, Hy.
    destruct d, (x <? y)%float, (y <? x)%float; reflexivity. }
  pose proof (sort_by_sorted (compareRows less_than_other k d)
                (has_number k) data) as Hsorted.
  assert (HP : Forall (has_number k)
                 (sort_by (compareRows less_than_other k d) data)).
  { now rewrite sort_by_perm. }
  revert HP. 
  assert (Hs : Sorted
            (fun a b => (0 <? compareRows less_than_other k d a b)%Z = false)
            (sort_by (compareRows less_than_other k d) data)).
  { apply Hsorted; [|exact Hnum].
    intros a b Ha Hb.
    destruct (Hgt a b Ha Hb) as (x & y & Hx & Hy & ->).
    destruct (Hgt b a Hb Ha) as (y' & x' & Hy' & Hx' & ->).
    rewrite Hx in Hx'. rewrite Hy in Hy'.
    injection Hx' as <-. injection Hy' as <-.
    destruct d.
    - destruct (x <? y)%float, (y <? x)%float; simpl; congruence.
    - apply float_ltb_asym. }
  clear Hsorted.
  induction Hs as [|a s Hs IH Hhd]; intros HP; [constructor|].
  apply Forall_cons in HP as [Ha HP].
  constructor; [now apply IH|].
  destruct Hhd as [|b s' Hab]; constructor.
  apply Forall_cons in HP as [Hb _].
  destruct (Hgt a b Ha Hb) as (x & y & Hx & Hy & Hcmp).
  rewrite Hcmp in Hab. unfold key_in_order. rewrite Hx, Hy.
  destruct d; [|exact Hab].
  destruct (x <? y)%float eqn:Exy; [now apply float_ltb_asym|].
  simpl in Hab. exact Hab.
Qed.

(** X16: whatever the sort state, every row of the data is on one of the
    pages 1 to totalPages of the sorted table. *)
Theorem every_row_is_on_a_page
    (sortConfig : SortConfig) (data : list row) (r : row) :
  r ∈ data ->
  exists p,
    (1 <= p <= totalPages data)%Z /\
    r ∈ paginatedData (sortedData less_than_other sortConfig data) p.
Proof.
  intros Hr.
  set (rows := sortedData less_than_other sortConfig data).
  assert (Hp : Permutation rows data).
  { subst rows. unfold sortedData.
    destruct (key sortConfig) as [k|]; [|reflexivity].
    destruct (String.eqb k ""); [reflexivity | apply sort_by_perm]. }
  assert (Htotal : totalPages rows = totalPages data).
  { unfold totalPages. now rewrite (Permutation_length Hp). }
  rewrite <- Hp, <- (all_pages_concat rows) in Hr.
  apply list_elem_of_In, in_concat in Hr as (page & Hpage & Hin).
  unfold all_pages in Hpage.
  apply in_map_iff in Hpage as (i & <- & Hi). apply in_seq in Hi.
  exists (Z.of_nat i). split; [lia|]. now apply list_elem_of_In.
Qed.

End Sorting.

(** An instance of X15: two rows, sorted descending by "a". *)
Lemma sortedData_orders_numbers_two_rows :
  Sorted (key_in_order "a" desc)
    (sortedData (fun _ _ => false) {| key := Some "a"; direction := desc |}
       (column_table "a" [1; 2]%float)).
Proof.
  apply sortedData_orders_numbers; [discriminate|].
  repeat constructor; eexists; split; reflexivity.
Defined.

(** An instance of X16: the row that holds 2. *)
Lemma every_row_is_on_a_page_two_rows :
  exists p,
    (1 <= p <= totalPages (column_table "a" [1; 2]%float))%Z /\
    {[ "a" := VNumber 2 ]} ∈
      paginatedData
        (sortedData (fun _ _ => false)
           {| key := Some "a"; direction := desc |}
           (column_table "a" [1; 2]%float)) p.
Proof.
  apply every_row_is_on_a_page. unfold column_table. simpl.
  apply list_elem_of_In. right. now left.
Defined.

(** ** The sort state *)

(** X17: after a click on the header of column [k] the sort key is [k],
    that header shows an arrow and every other header shows the neutral
    sign; the first click on a column sorts ascending, and each further
    click on the same column reverses the direction, so that two more
    clicks give the same state again. *)
Theorem handleSort_toggles (k : string) (prev : SortConfig) :
  let s := handleSort k prev in
  key s = Some k /\
  getSortIndicator s k =
    match direction s with asc => " ↑" | desc => " ↓" end /\
  (forall k', k' <> k -> getSortIndicator s k' = " ↕") /\
  (key prev <> Some k -> direction s = asc) /\
  direction (handleSort k s) =
    match direction s with asc => desc | desc => asc end /\
  handleSort k (handleSort k s) = s.
Proof.
  unfold handleSort, getSortIndicator. cbn [key direction].
  rewrite !String.eqb_refl.
  split; [reflexivity|]. split; [reflexivity|]. split.
  - intros k' Hk'. destruct (String.eqb_spec k k'); congruence.
  - split.
    + intros Hkey. destruct (key prev) as [k0|]; [|reflexivity].
      destruct (direction prev); [|reflexivity].
      destruct (String.eqb_spec k0 k); congruence.
    + destruct (key prev) as [k0|], (direction prev);
        try destruct (String.eqb k0 k); split; reflexivity.
Qed.
